(** * emotional_climate.py: the survey cleaning and scoring pipeline

    A shallow embedding of [src/emotional_climate.py] and the properties of
    its extraction, cleaning, scoring and ranking steps.

    Conventions of the embedding.
    - A Python [str] is a [string]; its characters are the code points
      0..255, with the Unicode classes [\w] and whitespace of that range.
    - A value whose type the code tests with [isinstance] is a [pyobj].
    - A raised exception is the [inl] of a [result]; a function that prints
      returns what it printed beside its result.
    - A Python number is the rational it denotes ([1 / 3] is [1 # 3]); the
      rounding of binary floating point is not modelled.  The value nan is
      the constructor [NaN]. *)

From Stdlib Require Import String Ascii List Bool Arith ZArith QArith Lia.
From Stdlib Require Import Permutation Sorted Numbers.DecimalString.
Import ListNotations.

Local Open Scope string_scope.
Local Open Scope list_scope.
Local Open Scope Z_scope.

(** ** Python objects and exceptions *)

#[warnings="-register-all"]
Inductive pyobj : Type :=
| PyStr (s : string)
| PyList (items : list pyobj)
| PyOther (repr type_name : string).

Inductive exn : Type :=
| TypeError (msg : string)
| IndexError (msg : string)
| ValueError (msg : string)
| FileNotFoundError (msg : string).

Definition exn_message (e : exn) : string :=
  match e with
  | TypeError m | IndexError m | ValueError m | FileNotFoundError m => m
  end.

Definition result (A : Type) : Type := (exn + A)%type.
Definition Ok {A : Type} (a : A) : result A := inr a.
Definition Raise {A : Type} (e : exn) : result A := inl e.

Definition bind {A B : Type} (m : result A) (k : A -> result B) : result B :=
  match m with
  | inl e => inl e
  | inr a => k a
  end.

Notation "x <- m ;; k" := (bind m (fun x => k))
  (at level 61, m at next level, right associativity).

Definition isinstance_str (o : pyobj) : bool :=
  match o with PyStr _ => true | _ => false end.

Definition isinstance_list (o : pyobj) : bool :=
  match o with PyList _ => true | _ => false end.

(** ** Characters *)

Definition newline : ascii := ascii_of_nat 10.
Definition space : ascii := ascii_of_nat 32.
Definition lbracket : ascii := ascii_of_nat 91.
Definition rbracket : ascii := ascii_of_nat 93.
Definition backslash : ascii := ascii_of_nat 92.
Definition squote : ascii := ascii_of_nat 39.
Definition dquote : ascii := ascii_of_nat 34.

Definition in_range (lo hi : N) (c : ascii) : bool :=
  let n := N_of_ascii c in (N.leb lo n && N.leb n hi)%bool.
Arguments in_range (lo hi)%_N c.

Definition code_in (codes : list N) (c : ascii) : bool :=
  existsb (N.eqb (N_of_ascii c)) codes.

(** [\w] of a [str] pattern: alphanumeric in the Unicode sense, or the
    underscore. *)
Definition is_word (c : ascii) : bool :=
  (in_range 48 57 c || in_range 65 90 c || in_range 97 122 c
   || code_in [95; 170; 178; 179; 181; 185; 186; 188; 189; 190]%N c
   || in_range 192 214 c || in_range 216 246 c || in_range 248 255 c)%bool.

(** [str.isspace] on one character. *)
Definition is_space (c : ascii) : bool :=
  (in_range 9 13 c || in_range 28 32 c || code_in [133; 160]%N c)%bool.

(** ** String primitives *)

Definition str (c : ascii) : string := String c EmptyString.

Fixpoint all_chars (p : ascii -> bool) (s : string) : bool :=
  match s with
  | EmptyString => true
  | String c s' => (p c && all_chars p s')%bool
  end.

Fixpoint has_char (p : ascii -> bool) (s : string) : bool :=
  match s with
  | EmptyString => false
  | String c s' => (p c || has_char p s')%bool
  end.

Fixpoint str_map (f : ascii -> ascii) (s : string) : string :=
  match s with
  | EmptyString => EmptyString
  | String c s' => String (f c) (str_map f s')
  end.

Fixpoint join (sep : string) (parts : list string) : string :=
  match parts with
  | [] => EmptyString
  | [p] => p
  | p :: rest => p ++ sep ++ join sep rest
  end.

Definition str_of_Z (z : Z) : string := NilZero.string_of_int (Z.to_int z).

(** [str.replace(old, new)] for one-character [old] and [new]. *)
Definition replace_char (old new : ascii) (s : string) : string :=
  str_map (fun c => if Ascii.eqb c old then new else c) s.

(** [str.find(sub)]: the lowest index where [sub] occurs, or -1. *)
Fixpoint find_from (sub s : string) (i : Z) : Z :=
  if prefix sub s then i
  else match s with
       | EmptyString => -1
       | String _ s' => find_from sub s' (i + 1)
       end.

Definition find (s sub : string) : Z := find_from sub s 0.

(** [str.strip()] *)
Fixpoint lstrip (s : string) : string :=
  match s with
  | EmptyString => EmptyString
  | String c s' => if is_space c then lstrip s' else s
  end.

Fixpoint rstrip (s : string) : string :=
  match s with
  | EmptyString => EmptyString
  | String c s' =>
      match rstrip s' with
      | EmptyString => if is_space c then EmptyString else str c
      | r => String c r
      end
  end.

Definition strip (s : string) : string := rstrip (lstrip s).

(** Slices [l[lo:hi]] of a sequence, with Python's treatment of negative
    and out-of-range bounds. *)
Definition adjust_index (len i : Z) : Z :=
  if i <? 0 then Z.max 0 (i + len) else Z.min i len.

Definition slice {A : Type} (l : list A) (lo hi : option Z) : list A :=
  let len := Z.of_nat (List.length l) in
  let start := match lo with Some i => adjust_index len i | None => 0 end in
  let stop := match hi with Some i => adjust_index len i | None => len end in
  firstn (Z.to_nat (stop - start)) (skipn (Z.to_nat start) l).

Definition str_slice (s : string) (lo hi : option Z) : string :=
  string_of_list_ascii (slice (list_ascii_of_string s) lo hi).

(** [str.split(sep)]: the pieces between the non-overlapping occurrences
    of [sep], found from the left.  [skip] counts the characters of an
    occurrence still to be passed over. *)
Definition push_char (c : ascii) (pieces : list string) : list string :=
  match pieces with
  | [] => [str c]
  | p :: rest => String c p :: rest
  end.

Fixpoint split_from (sep : string) (skip : nat) (s : string) : list string :=
  match s with
  | EmptyString => [EmptyString]
  | String c s' =>
      match skip with
      | S k => split_from sep k s'
      | O =>
          if prefix sep s
          then EmptyString :: split_from sep (String.length sep - 1) s'
          else push_char c (split_from sep 0 s')
      end
  end.

Definition split (s sep : string) : result (list string) :=
  match sep with
  | EmptyString => Raise (ValueError "empty separator")
  | _ => Ok (split_from sep 0 s)
  end.

(** [re.findall(r"\[(\w+)\]", s)]: the scan tries a match at each position
    from the left and resumes after a match; the result lists the captured
    groups. *)
Fixpoint word_run (s : string) : string * string :=
  match s with
  | EmptyString => (EmptyString, EmptyString)
  | String c s' =>
      if is_word c
      then let (w, rest) := word_run s' in (String c w, rest)
      else (EmptyString, s)
  end.

Definition match_here (s : string) : option (string * nat) :=
  match s with
  | EmptyString => None
  | String c s' =>
      if Ascii.eqb c lbracket
      then match word_run s' with
           | (EmptyString, _) => None
           | (w, String d _) =>
               if Ascii.eqb d rbracket then Some (w, (String.length w + 2)%nat)
               else None
           | (_, EmptyString) => None
           end
      else None
  end.

Fixpoint findall_from (skip : nat) (s : string) : list string :=
  match s with
  | EmptyString => []
  | String _ s' =>
      match skip with
      | S k => findall_from k s'
      | O =>
          match match_here s with
          | Some (w, n) => w :: findall_from (n - 1) s'
          | None => findall_from 0 s'
          end
      end
  end.

Definition findall (s : string) : list string := findall_from 0 s.

(** [repr] and [type] of an object, as the error messages print them. *)
Definition hex_digit (n : N) : ascii :=
  if N.ltb n 10 then ascii_of_N (48 + n)%N else ascii_of_N (87 + n)%N.

Definition is_printable (c : ascii) : bool :=
  (in_range 32 126 c || in_range 161 172 c || in_range 174 255 c)%bool.

Definition repr_char (quote c : ascii) : string :=
  if (Ascii.eqb c quote || Ascii.eqb c backslash)%bool then String backslash (str c)
  else if Ascii.eqb c newline then String backslash "n"
  else if Ascii.eqb c (ascii_of_nat 13) then String backslash "r"
  else if Ascii.eqb c (ascii_of_nat 9) then String backslash "t"
  else if is_printable c then str c
  else String backslash
         (String "x" (String (hex_digit (N.div (N_of_ascii c) 16%N))
                        (str (hex_digit (N.modulo (N_of_ascii c) 16%N))))).

Fixpoint repr_chars (quote : ascii) (s : string) : string :=
  match s with
  | EmptyString => EmptyString
  | String c s' => repr_char quote c ++ repr_chars quote s'
  end.

Definition repr_str (s : string) : string :=
  let quote :=
    if (has_char (Ascii.eqb squote) s && negb (has_char (Ascii.eqb dquote) s))%bool
    then dquote else squote in
  String quote (repr_chars quote s ++ str quote).

Fixpoint py_repr (o : pyobj) : string :=
  match o with
  | PyStr s => repr_str s
  | PyList items => "[" ++ join ", " (map py_repr items) ++ "]"
  | PyOther r _ => r
  end.

Definition py_type (o : pyobj) : string :=
  match o with
  | PyStr _ => "<class 'str'>"
  | PyList _ => "<class 'list'>"
  | PyOther _ t => "<class '" ++ t ++ "'>"
  end.

(** ** extract_feeling

    [re.findall] always returns a list, so the test [match is not None]
    holds and the branch returning the empty string is never taken. *)

Definition extract_feeling (data : pyobj) (subgroup : Z) : result string :=
  match data with
  | PyStr s =>
      if subgroup <? 0
      then Raise (IndexError
             ("Subgroup must be a positive number or zero.  A subgroup argument of "
              ++ str_of_Z subgroup ++ " was supplied."))
      else
        let matched := findall s in
        let number_of_matches := Z.of_nat (List.length matched) in
        if subgroup >=? number_of_matches
        then Raise (IndexError
               ("Subgroup must be less than the number of words in brackets in the dataset.  There were "
                ++ str_of_Z number_of_matches
                ++ " word(s) matched, and the subgroup argument supplied was "
                ++ str_of_Z subgroup ++ "."))
        else
          match nth_error matched (Z.to_nat subgroup) with
          | Some w => Ok w
          | None => Raise (IndexError "list index out of range")
          end
  | _ =>
      Raise (TypeError
        (py_repr data ++ " is of type " ++ py_type data
         ++ ", not of type string.  This function only takes in a string as the data argument."))
  end.

(** ** strip_data *)

Definition strip_data (raw_data : pyobj) : result string :=
  match raw_data with
  | PyStr s =>
      let cleaned := replace_char newline space s in
      Ok (strip (str_slice cleaned (Some (find cleaned (str rbracket) + 1)) None))
  | _ =>
      Raise (TypeError
        (py_repr raw_data ++ " is of type " ++ py_type raw_data
         ++ ", not of type string.  This function only takes in a string as an argument."))
  end.

(** ** clean_data

    The function prints a diagnostic for each block it skips; the model
    returns, with the result, the trace of the calls it made and of the
    lines it printed. *)

Inductive event : Type :=
| Call_extract_feeling (data : pyobj)
| Call_strip_data (data : pyobj)
| Print (line : string).

Definition is_TypeError (e : exn) : bool :=
  match e with TypeError _ => true | _ => false end.

Definition is_IndexError (e : exn) : bool :=
  match e with IndexError _ => true | _ => false end.

Definition extract_diagnostic (error : exn) : string :=
  "An error was raised when trying to extract a feeling from the input data.  This set of data will be skipped.  The error raised was: "
  ++ exn_message error.

Definition strip_diagnostic (error : exn) : string :=
  "An error was raised when trying to extract data from the input data.  This set of data will be skipped.  The error raised was: "
  ++ exn_message error.

(** One iteration of the loop over [raw_data]. *)
Definition clean_block (data : pyobj) (cleaned_data_tuple : list (string * string))
  : list event * result (list (string * string)) :=
  match extract_feeling data 0 with
  | inl error =>
      if (is_TypeError error || is_IndexError error)%bool
      then ([Call_extract_feeling data; Print (extract_diagnostic error)],
            Ok cleaned_data_tuple)
      else ([Call_extract_feeling data], Raise error)
  | inr clean_feeling =>
      match strip_data data with
      | inl error =>
          if is_TypeError error
          then ([Call_extract_feeling data; Call_strip_data data;
                 Print (strip_diagnostic error)],
                Ok cleaned_data_tuple)
          else ([Call_extract_feeling data; Call_strip_data data], Raise error)
      | inr cleaned_data =>
          ([Call_extract_feeling data; Call_strip_data data],
           Ok (cleaned_data_tuple ++ [(clean_feeling, cleaned_data)]))
      end
  end.

Fixpoint clean_loop (raw_data : list pyobj) (cleaned_data_tuple : list (string * string))
  : list event * result (list (string * string)) :=
  match raw_data with
  | [] => ([], Ok cleaned_data_tuple)
  | data :: rest =>
      match clean_block data cleaned_data_tuple with
      | (t, inl error) => (t, Raise error)
      | (t, inr tuple') =>
          let (t', r) := clean_loop rest tuple' in (t ++ t', r)
      end
  end.

(** The returned value is [None] when the function ends without reaching
    its [return]. *)
Definition clean_data (raw_data : pyobj)
  : list event * result (option (list (string * string))) :=
  match raw_data with
  | PyList items =>
      if forallb isinstance_str items
      then
        let (t, r) := clean_loop items [] in
        (t, cleaned_data_tuple <- r ;;
            Ok (match cleaned_data_tuple with
                | [] => None
                | _ :: _ => Some cleaned_data_tuple
                end))
      else ([], Raise (TypeError
              "Argument given was a list, but not every element of that list was a string."))
  | _ =>
      ([], Raise (TypeError
         ("Argument given was of type " ++ py_type raw_data
          ++ ", but must be of type list.")))
  end.

Definition stdout (t : list event) : list string :=
  flat_map (fun e => match e with Print line => [line] | _ => [] end) t.

(** ** The class Data *)

Inductive pynum : Type :=
| Num (q : Q)
| NaN.

(** An entry of [weights]: a number, or [None]. *)
Definition weight : Type := option Q.

Record Data : Type := mkData {
  feeling : string;
  data : string;
  weights : list weight;
  average_weight : pynum
}.

Definition Data_init (feeling data : string) : Data :=
  mkData feeling data [] (Num 0).

(** [np.mean] of a list.  numpy is not part of the repository; the model
    follows its behaviour on the lists the class holds: the mean of an
    empty list is nan; a list of numbers is summed and divided by its
    length; a list holding [None] becomes an array of objects, on which the
    reduction (or, for a single [None], the division) raises TypeError. *)
Fixpoint add_reduce (total : Q) (ws : list weight) : result Q :=
  match ws with
  | [] => Ok total
  | Some q :: rest => add_reduce (total + q)%Q rest
  | None :: _ => Raise (TypeError "unsupported operand type(s)")
  end.

Definition np_mean (ws : list weight) : result pynum :=
  match ws with
  | [] => Ok NaN
  | _ :: _ =>
      total <- add_reduce 0%Q ws ;;
      Ok (Num (total / inject_Z (Z.of_nat (List.length ws)))%Q)
  end.

(** A method takes [self] and returns it as the call leaves it, with the
    value returned or the exception raised. *)
Definition update_average_weight (self : Data) : Data * result unit :=
  match np_mean (weights self) with
  | inl error => (self, Raise error)
  | inr m =>
      (mkData (feeling self) (data self) (weights self) m, Ok tt)
  end.

Definition update_weights (self : Data) (new_weights : list weight)
  : Data * result unit :=
  let self := mkData (feeling self) (data self) new_weights (average_weight self) in
  update_average_weight self.

(** ** populate_dataset

    The module-level list [clean_data_objects] is passed as state. *)
Definition populate_dataset (feeling feeling_data : pyobj) (clean_data_objects : list Data)
  : list Data * result unit :=
  match feeling, feeling_data with
  | PyStr f, PyStr d => (clean_data_objects ++ [Data_init f d], Ok tt)
  | _, _ =>
      (clean_data_objects,
       Raise (TypeError
         ("Feeling argument supplied was of type " ++ py_type feeling
          ++ ", and feeling_data argument supplied was of type " ++ py_type feeling_data
          ++ ".  They must both be of type string.")))
  end.

(** ** find_weights *)

Definition weight_for_time_interval : list (string * Q) :=
  [("Never", 0%Q); ("Sometimes", 1 # 3); ("Often", 2 # 3); ("Always", 1%Q)].

Fixpoint dict_get (d : list (string * Q)) (key : string) : option Q :=
  match d with
  | [] => None
  | (k, v) :: rest => if String.eqb k key then Some v else dict_get rest key
  end.

Definition find_weights (data : pyobj) : result (list weight) :=
  match data with
  | PyStr s =>
      tokens <- split s (str space) ;;
      Ok (fold_left
            (fun weights time_interval =>
               match dict_get weight_for_time_interval time_interval with
               | Some w => weights ++ [Some w]
               | None => weights ++ [None]
               end)
            tokens [])
  | _ =>
      Raise (TypeError
        ("Data argument supplied was of type " ++ py_type data
         ++ ", it must be of type string."))
  end.

(** ** order_weights *)

(** [<] on numbers: every comparison with nan is false. *)
Definition py_lt (a b : pynum) : bool :=
  match a, b with
  | Num x, Num y => match (x ?= y)%Q with Lt => true | _ => false end
  | _, _ => false
  end.

(** [list.sort(key=..., reverse=...)].  The sort is stable and compares
    keys with [<] only; with [reverse] the list is reversed, sorted and
    reversed again, which keeps equal keys in their original order.  The
    sort itself is modelled by insertion. *)
Section Sort.
Variable A : Type.
Variable key : A -> pynum.

Fixpoint insert (x : A) (l : list A) : list A :=
  match l with
  | [] => [x]
  | y :: rest =>
      if py_lt (key y) (key x) then y :: insert x rest else x :: l
  end.

Fixpoint stable_sort (l : list A) : list A :=
  match l with
  | [] => []
  | x :: rest => insert x (stable_sort rest)
  end.

Definition list_sort (reverse : bool) (l : list A) : list A :=
  if reverse then rev (stable_sort (rev l)) else stable_sort l.
End Sort.
Arguments insert {A} key x l.
Arguments stable_sort {A} key l.
Arguments list_sort {A} key reverse l.

(** The function returns nothing; the model returns the pairs it prints,
    in the order of the lines. *)
Definition order_weights (data_objects : list Data) : list (string * pynum) :=
  let weights :=
    fold_left
      (fun weights data_object =>
         weights ++ [(feeling data_object, average_weight data_object)])
      data_objects [] in
  list_sort snd true weights.

(** ** get_data_from_file

    The files are a partial map from names to contents. *)
Definition get_data_from_file (files : string -> option string)
    (file_to_read_from delimiter : string) (lower_index : Z) (upper_index : option Z)
  : result (list string) :=
  match files file_to_read_from with
  | None => Raise (FileNotFoundError (file_to_read_from ++ " could not be found."))
  | Some contents =>
      data <- split contents delimiter ;;
      match upper_index with
      | Some upper => Ok (slice data (Some lower_index) (Some upper))
      | None => Ok (slice data (Some lower_index) (Some (Z.of_nat (List.length data))))
      end
  end.

(** ** main

    [DELIMITER] is the module constant.  The loops of [main] stop at the
    first exception; the objects of the registry are updated in place, so
    the registry is returned as the exception leaves it.  The model
    returns the registry, the diagnostics printed by [clean_data] and
    either the exception or the pairs printed by [order_weights]. *)
Definition DELIMITER : string := "---".

Fixpoint populate_loop (cleaned_data : list (string * string))
    (clean_data_objects : list Data) : list Data * result unit :=
  match cleaned_data with
  | [] => (clean_data_objects, Ok tt)
  | data :: rest =>
      match populate_dataset (PyStr (fst data)) (PyStr (snd data)) clean_data_objects with
      | (registry, inl error) => (registry, Raise error)
      | (registry, inr _) => populate_loop rest registry
      end
  end.

Fixpoint update_loop (clean_data_objects : list Data) : list Data * result unit :=
  match clean_data_objects with
  | [] => ([], Ok tt)
  | data_object :: rest =>
      match find_weights (PyStr (data data_object)) with
      | inl error => (data_object :: rest, Raise error)
      | inr new_weights =>
          match update_weights data_object new_weights with
          | (data_object', inl error) => (data_object' :: rest, Raise error)
          | (data_object', inr _) =>
              let (rest', r) := update_loop rest in (data_object' :: rest', r)
          end
      end
  end.

Definition main (files : string -> option string) (clean_data_objects : list Data)
  : list Data * list string * result (list (string * pynum)) :=
  match get_data_from_file files "EmotionalClimateData.dat" DELIMITER 5 (Some 15) with
  | inl error => (clean_data_objects, [], Raise error)
  | inr raw_data =>
      match clean_data (PyList (map PyStr raw_data)) with
      | (t, inl error) => (clean_data_objects, stdout t, Raise error)
      | (t, inr None) =>
          (clean_data_objects, stdout t,
           Raise (TypeError "'NoneType' object is not iterable"))
      | (t, inr (Some cleaned_data)) =>
          match populate_loop cleaned_data clean_data_objects with
          | (registry, inl error) => (registry, stdout t, Raise error)
          | (registry, inr _) =>
              match update_loop registry with
              | (registry', inl error) => (registry', stdout t, Raise error)
              | (registry', inr _) =>
                  (registry', stdout t, Ok (order_weights registry'))
              end
          end
      end
  end.

(** * Vocabulary of the statements *)

Fixpoint count_char (c : ascii) (s : string) : nat :=
  match s with
  | EmptyString => O
  | String d s' => if Ascii.eqb d c then S (count_char c s') else count_char c s'
  end.

Definition survives (block : string) : bool :=
  match extract_feeling (PyStr block) 0 with
  | inr _ => true
  | inl _ => false
  end.

(** What one text block contributes: its pair, its diagnostic and its
    calls. *)
Definition block_pairs (block : string) : list (string * string) :=
  match extract_feeling (PyStr block) 0, strip_data (PyStr block) with
  | inr label, inr body => [(label, body)]
  | _, _ => []
  end.

Definition block_trace (block : string) : list event :=
  match extract_feeling (PyStr block) 0 with
  | inl error =>
      [Call_extract_feeling (PyStr block); Print (extract_diagnostic error)]
  | inr _ => [Call_extract_feeling (PyStr block); Call_strip_data (PyStr block)]
  end.

Definition extract_calls (t : list event) : list pyobj :=
  flat_map (fun e => match e with Call_extract_feeling d => [d] | _ => [] end) t.

Definition block_diagnostic (block : string) : list string :=
  match extract_feeling (PyStr block) 0 with
  | inl error => [extract_diagnostic error]
  | inr _ => []
  end.

Definition scenario_block : string :=
  str newline ++ "How do you feel when you're at school? [Supported]"
  ++ str newline ++ "Often" ++ str newline ++ "Always" ++ str newline ++ "Often"
  ++ str newline ++ "Often" ++ str newline ++ "Sometimes" ++ str newline ++ "Never".

Definition Qsum (qs : list Q) : Q := fold_right Qplus 0%Q qs.

(** The loop of [main] that registers the cleaned pairs. *)
Definition populate_all (pairs : list (string * string)) (clean_data_objects : list Data)
  : list Data :=
  fold_left
    (fun registry p => fst (populate_dataset (PyStr (fst p)) (PyStr (snd p)) registry))
    pairs clean_data_objects.

Definition one_file (name contents : string) : string -> option string :=
  fun n => if String.eqb n name then Some contents else None.

Definition is_nan (x : pynum) : bool :=
  match x with NaN => true | Num _ => false end.

Definition num_le (a b : pynum) : Prop :=
  match a, b with Num x, Num y => (x <= y)%Q | _, _ => False end.

Definition num_lt (a b : pynum) : Prop :=
  match a, b with Num x, Num y => (x < y)%Q | _, _ => False end.

Definition num_eq (a b : pynum) : Prop :=
  match a, b with Num x, Num y => (x == y)%Q | _, _ => False end.

(** The number [x] has the value [k]. *)
Definition has_value (k : Q) (x : pynum) : bool :=
  match x with Num q => Qeq_bool q k | NaN => false end.

(** Order of the entries of a list under their keys. *)
Definition key_defined {A : Type} (key : A -> pynum) (a : A) : Prop :=
  is_nan (key a) = false.

Definition key_ascending {A : Type} (key : A -> pynum) (a b : A) : Prop :=
  num_le (key a) (key b).

Definition key_descending {A : Type} (key : A -> pynum) (a b : A) : Prop :=
  num_le (key b) (key a).

(** The pairs a call of [clean_data] returned. *)
Definition returned_pairs (r : option (list (string * string))) : list (string * string) :=
  match r with
  | Some pairs => pairs
  | None => []
  end.

(** The answers of the weight table. *)
Definition answers : list string := ["Never"; "Sometimes"; "Often"; "Always"].

Definition in_unit_interval (x : pynum) : Prop :=
  match x with
  | Num q => (0 <= q <= 1)%Q
  | NaN => False
  end.

(** The message of the IndexError for the selector 0 and no match. *)
Definition no_match_message : string :=
  "Subgroup must be less than the number of words in brackets in the dataset.  There were 0 word(s) matched, and the subgroup argument supplied was 0.".

(** The blocks [main] cleans: the sixth to the fifteenth block of the
    file. *)
Definition main_blocks (contents : string) : list string :=
  firstn 10 (skipn 5 (split_from DELIMITER 0 contents)).

(** Every token of the body of a record is one of the four answers. *)
Definition scorable (d : Data) : Prop :=
  Forall (fun tok => In tok answers) (split_from (str space) 0 (data d)).

(** The record [d'] is the record [d] with the weights of its body and
    their mean. *)
Definition scored (d d' : Data) : Prop :=
  feeling d' = feeling d /\ data d' = data d
  /\ find_weights (PyStr (data d)) = Ok (weights d')
  /\ np_mean (weights d') = Ok (average_weight d')
  /\ in_unit_interval (average_weight d').

Definition example_file : string :=
  "a---b---c---d---e---Q [Tired]" ++ str newline ++ "Often" ++ str newline
  ++ "Never---Timestamp---Q [Calm]" ++ str newline ++ "Always".

Definition misspelt_file : string :=
  "a---b---c---d---e---Q [Tired]" ++ str newline ++ "Often" ++ str newline ++ "never".

(** * Properties *)

(** ** The label extractor *)

Lemma match_here_nonempty s w n :
  match_here s = Some (w, n) -> w <> EmptyString.
Proof.
  destruct s as [|c s]; simpl; [discriminate|].
  destruct (Ascii.eqb c lbracket); [|discriminate].
  destruct (word_run s) as [[|a w'] [|d r]]; try discriminate.
  destruct (Ascii.eqb d rbracket); [|discriminate].
  intros H; inversion H; subst; discriminate.
Qed.

Lemma findall_from_nonempty s :
  forall skip, Forall (fun w => w <> EmptyString) (findall_from skip s).
Proof.
  induction s as [|c s IH]; intros skip; cbn [findall_from]; [constructor|].
  destruct skip as [|k]; [|apply IH].
  destruct (match_here (String c s)) as [[w n]|] eqn:Hm; [|apply IH].
  constructor; [eapply match_here_nonempty; eassumption | apply IH].
Qed.

Lemma findall_from_no_bracket s :
  has_char (Ascii.eqb lbracket) s = false ->
  forall skip, findall_from skip s = [].
Proof.
  induction s as [|c s IH]; cbn [findall_from has_char]; intros H skip;
    [reflexivity|].
  apply orb_false_iff in H; destruct H as [Hc Hs].
  destruct skip as [|k]; [|apply IH; assumption].
  assert (Hm : match_here (String c s) = None)
    by (cbn [match_here]; rewrite Ascii.eqb_sym, Hc; reflexivity).
  rewrite Hm; apply IH; assumption.
Qed.

(** The matches of a text, piece by piece: the text before the first
    opening bracket holds none, and a bracketed run of word characters is
    the next match. *)
Lemma word_run_word w rest :
  all_chars is_word w = true ->
  word_run (w ++ String rbracket rest) = (w, String rbracket rest).
Proof.
  induction w as [|c w IH]; cbn [append all_chars word_run]; [reflexivity|].
  intros H; apply andb_true_iff in H; destruct H as [Hc Hw].
  rewrite Hc, (IH Hw); reflexivity.
Qed.

Lemma findall_from_skip u rest :
  findall_from (String.length u) (u ++ rest) = findall_from 0 rest.
Proof.
  induction u as [|c u IH]; cbn [String.length append]; [reflexivity|].
  cbn [findall_from]; exact IH.
Qed.

Lemma findall_from_prefix a s :
  has_char (Ascii.eqb lbracket) a = false ->
  findall_from 0 (a ++ s) = findall_from 0 s.
Proof.
  induction a as [|c a IH]; cbn [append has_char]; intros H; [reflexivity|].
  apply orb_false_iff in H; destruct H as [Hc Ha].
  cbn [findall_from].
  assert (Hm : match_here (String c (a ++ s)) = None)
    by (cbn [match_here]; rewrite Ascii.eqb_sym, Hc; reflexivity).
  rewrite Hm; apply IH; exact Ha.
Qed.

Lemma findall_bracketed a w rest :
  has_char (Ascii.eqb lbracket) a = false ->
  w <> EmptyString -> all_chars is_word w = true ->
  findall (a ++ String lbracket (w ++ String rbracket rest)) = w :: findall rest.
Proof.
  intros Ha Hne Hw; unfold findall.
  rewrite findall_from_prefix by exact Ha.
  cbn [findall_from].
  assert (Hm : match_here (String lbracket (w ++ String rbracket rest))
               = Some (w, (String.length w + 2)%nat)).
  { cbn [match_here]; rewrite Ascii.eqb_refl, (word_run_word w rest Hw).
    destruct w; [congruence|]; rewrite Ascii.eqb_refl; reflexivity. }
  rewrite Hm; f_equal.
  replace (String.length w + 2 - 1)%nat with (String.length (w ++ str rbracket))
    by (clear; induction w; cbn [append String.length str] in *; lia).
  replace (w ++ String rbracket rest)%string with ((w ++ str rbracket) ++ rest)%string
    by (clear; induction w; cbn [append str]; [reflexivity|f_equal; assumption]).
  apply findall_from_skip.
Qed.

(** C5: for a text block and a selector that is not negative,
    [extract_feeling] raises IndexError exactly when the selector is at
    least the number of bracketed words found; otherwise it returns the
    word at that position.  A block without a bracketed word raises
    IndexError for the default selector 0, and no block makes the function
    return the empty string. *)
Theorem extract_feeling_out_of_range (s : string) (subgroup : Z)
    (Hsub : 0 <= subgroup) :
  ((exists msg, extract_feeling (PyStr s) subgroup = Raise (IndexError msg))
   <-> Z.of_nat (List.length (findall s)) <= subgroup)
  /\ (subgroup < Z.of_nat (List.length (findall s)) ->
      exists w, nth_error (findall s) (Z.to_nat subgroup) = Some w
                /\ extract_feeling (PyStr s) subgroup = Ok w)
  /\ (findall s = [] ->
      exists msg, extract_feeling (PyStr s) 0 = Raise (IndexError msg))
  /\ (has_char (Ascii.eqb lbracket) s = false ->
      exists msg, extract_feeling (PyStr s) 0 = Raise (IndexError msg))
  /\ extract_feeling (PyStr s) subgroup <> Ok EmptyString.
Proof.
  assert (Hin : forall sg, 0 <= sg -> sg < Z.of_nat (List.length (findall s)) ->
            exists w, nth_error (findall s) (Z.to_nat sg) = Some w
                      /\ w <> EmptyString
                      /\ extract_feeling (PyStr s) sg = Ok w).
  { intros sg H0 Hlt. unfold extract_feeling.
    destruct (sg <? 0) eqn:Hneg; [apply Z.ltb_lt in Hneg; lia|].
    destruct (sg >=? Z.of_nat (List.length (findall s))) eqn:Hge.
    { rewrite Z.geb_le in Hge; lia. }
    destruct (nth_error (findall s) (Z.to_nat sg)) as [w|] eqn:Hn.
    - exists w; repeat split; auto.
      pose proof (findall_from_nonempty s 0) as Hall.
      rewrite Forall_forall in Hall; apply Hall.
      eapply nth_error_In; exact Hn.
    - apply nth_error_None in Hn; lia. }
  assert (Hout : forall sg, 0 <= sg -> Z.of_nat (List.length (findall s)) <= sg ->
            exists msg, extract_feeling (PyStr s) sg = Raise (IndexError msg)).
  { intros sg H0 Hle. unfold extract_feeling.
    destruct (sg <? 0) eqn:Hneg; [apply Z.ltb_lt in Hneg; lia|].
    destruct (sg >=? Z.of_nat (List.length (findall s))) eqn:Hge.
    - eexists; reflexivity.
    - rewrite Z.geb_leb in Hge; apply Z.leb_gt in Hge; lia. }
  repeat split.
  - intros [msg Hm].
    destruct (Z_lt_le_dec subgroup (Z.of_nat (List.length (findall s)))) as [Hlt|Hle];
      [|assumption].
    destruct (Hin subgroup Hsub Hlt) as (w & _ & _ & Hw).
    rewrite Hw in Hm; discriminate.
  - apply Hout; assumption.
  - intros Hlt; destruct (Hin subgroup Hsub Hlt) as (w & Hn & _ & Hw).
    exists w; split; assumption.
  - intros Hnil; apply Hout; [lia|rewrite Hnil; simpl; lia].
  - intros Hnb; apply Hout; [lia|].
    unfold findall; rewrite findall_from_no_bracket by assumption; simpl; lia.
  - intros Heq.
    destruct (Z_lt_le_dec subgroup (Z.of_nat (List.length (findall s)))) as [Hlt|Hle].
    + destruct (Hin subgroup Hsub Hlt) as (w & _ & Hne & Hw).
      rewrite Hw in Heq; inversion Heq; contradiction.
    + destruct (Hout subgroup Hsub Hle) as [msg Hm].
      rewrite Hm in Heq; discriminate.
Qed.

(** The block without brackets of the specification, and the selector 1 on
    a block with two bracketed words. *)
Lemma extract_feeling_out_of_range_witness :
  0 <= 0
  /\ (exists msg, extract_feeling (PyStr "no brackets here") 0 = Raise (IndexError msg))
  /\ extract_feeling (PyStr "[6] [90]") 1 = Ok "90".
Proof.
  split; [lia|]. split.
  - apply (proj1 (proj2 (proj2 (proj2 (extract_feeling_out_of_range
             "no brackets here" 0 (Z.le_refl 0)))))).
    reflexivity.
  - reflexivity.
Defined.

(** ** Splitting on single spaces and the weight table *)

Lemma split_from_not_nil sep s : forall skip, split_from sep skip s <> [].
Proof.
  induction s as [|c s IH]; intros skip; cbn [split_from]; [discriminate|].
  destruct skip as [|k]; [|apply IH].
  destruct (prefix sep (String c s)); [discriminate|].
  destruct (split_from sep 0 s); discriminate.
Qed.

Lemma prefix_char c d s : prefix (str c) (String d s) = Ascii.eqb d c.
Proof.
  unfold str; cbn [prefix].
  destruct (ascii_dec c d) as [->|Hne].
  - rewrite Ascii.eqb_refl; destruct s; reflexivity.
  - symmetry; apply Ascii.eqb_neq; congruence.
Qed.

Lemma split_char_cons c d s :
  split_from (str c) 0 (String d s) =
  if Ascii.eqb d c then EmptyString :: split_from (str c) 0 s
  else push_char d (split_from (str c) 0 s).
Proof. cbn [split_from]; rewrite prefix_char; reflexivity. Qed.

Lemma split_char_length c s :
  List.length (split_from (str c) 0 s) = S (count_char c s).
Proof.
  induction s as [|d s IH]; [reflexivity|].
  rewrite split_char_cons; cbn [count_char].
  destruct (Ascii.eqb d c); cbn [List.length]; [rewrite IH; reflexivity|].
  destruct (split_from (str c) 0 s) as [|h t] eqn:Hs;
    [exfalso; revert Hs; apply split_from_not_nil|].
  exact IH.
Qed.

Lemma join_push_char sep d l :
  l <> [] -> join sep (push_char d l) = String d (join sep l).
Proof.
  destruct l as [|h [|h' t]]; [congruence| |]; intros _; reflexivity.
Qed.

Lemma split_char_join c s : join (str c) (split_from (str c) 0 s) = s.
Proof.
  induction s as [|d s IH]; [reflexivity|].
  rewrite split_char_cons.
  destruct (Ascii.eqb d c) eqn:Hd.
  - apply Ascii.eqb_eq in Hd; subst d.
    destruct (split_from (str c) 0 s) as [|h t] eqn:Hs;
      [exfalso; revert Hs; apply split_from_not_nil|].
    cbn [join]; cbn [join] in IH.
    change (EmptyString ++ str c ++ join (str c) (h :: t))%string
      with (String c (join (str c) (h :: t))).
    rewrite IH; reflexivity.
  - rewrite join_push_char by apply split_from_not_nil.
    rewrite IH; reflexivity.
Qed.

Lemma split_char_pieces c s :
  Forall (fun p => count_char c p = O) (split_from (str c) 0 s).
Proof.
  induction s as [|d s IH]; [repeat constructor|].
  rewrite split_char_cons.
  destruct (Ascii.eqb d c) eqn:Hd.
  - constructor; [reflexivity|assumption].
  - destruct (split_from (str c) 0 s) as [|h t]; cbn [push_char].
    + constructor; [cbn [str count_char]; rewrite Hd; reflexivity|constructor].
    + inversion IH; subst; constructor; [|assumption].
      cbn [count_char]; rewrite Hd; assumption.
Qed.

Lemma fold_left_append {A B : Type} (f : A -> B) (l : list A) :
  forall acc, fold_left (fun acc x => acc ++ [f x]) l acc = acc ++ map f l.
Proof.
  induction l as [|x l IH]; intros acc; cbn [fold_left map].
  - rewrite app_nil_r; reflexivity.
  - rewrite IH, <- app_assoc; reflexivity.
Qed.

Lemma fold_left_ext {A B : Type} (f g : B -> A -> B) (l : list A) :
  (forall b a, f b a = g b a) ->
  forall acc, fold_left f l acc = fold_left g l acc.
Proof.
  intros H; induction l as [|x l IH]; intros acc; cbn [fold_left];
    [reflexivity|].
  rewrite H; apply IH.
Qed.

Lemma find_weights_map s :
  find_weights (PyStr s) =
  Ok (map (dict_get weight_for_time_interval) (split_from (str space) 0 s)).
Proof.
  unfold find_weights, split, bind; cbn [str].
  unfold Ok; f_equal.
  rewrite fold_left_ext
    with (g := fun acc x => acc ++ [dict_get weight_for_time_interval x]).
  - rewrite fold_left_append; reflexivity.
  - intros b a; destruct (dict_get weight_for_time_interval a); reflexivity.
Qed.

(** C2: for every text body [find_weights] returns a list, never an
    exception.  Its length is the number of pieces of the body between
    single spaces, one more than the number of spaces; the pieces, joined
    by single spaces, give back the body, so consecutive spaces give empty
    pieces.  The entry at each position is the weight of the piece at that
    position: 0, 1/3, 2/3 and 1 for Never, Sometimes, Often and Always, and
    [None] for every other piece, the empty one included. *)
Theorem find_weights_total (body : string) :
  exists tokens ws,
    split body (str space) = Ok tokens
    /\ find_weights (PyStr body) = Ok ws
    /\ join (str space) tokens = body
    /\ Forall (fun tok => count_char space tok = O) tokens
    /\ List.length tokens = S (count_char space body)
    /\ List.length ws = List.length tokens
    /\ (forall i tok, nth_error tokens i = Some tok ->
          nth_error ws i =
          Some (if String.eqb tok "Never" then Some 0%Q
                else if String.eqb tok "Sometimes" then Some (1 # 3)
                else if String.eqb tok "Often" then Some (2 # 3)
                else if String.eqb tok "Always" then Some 1%Q
                else None))
    /\ (forall i, nth_error tokens i = Some EmptyString ->
          nth_error ws i = Some None).
Proof.
  exists (split_from (str space) 0 body).
  exists (map (dict_get weight_for_time_interval) (split_from (str space) 0 body)).
  assert (Hnth : forall i tok,
            nth_error (split_from (str space) 0 body) i = Some tok ->
            nth_error (map (dict_get weight_for_time_interval)
                         (split_from (str space) 0 body)) i =
            Some (dict_get weight_for_time_interval tok)).
  { intros i tok H; rewrite nth_error_map, H; reflexivity. }
  split; [reflexivity|].
  split; [apply find_weights_map|].
  split; [apply split_char_join|].
  split; [apply split_char_pieces|].
  split; [apply split_char_length|].
  split; [apply length_map|].
  split.
  - intros i tok H; etransitivity; [exact (Hnth i tok H)|]; f_equal.
    cbn [dict_get weight_for_time_interval].
    rewrite (String.eqb_sym "Never"), (String.eqb_sym "Sometimes"),
      (String.eqb_sym "Often"), (String.eqb_sym "Always").
    reflexivity.
  - intros i H; exact (Hnth i _ H).
Qed.

(** ** The body normalizer *)

Lemma all_chars_app p a b :
  all_chars p (a ++ b) = (all_chars p a && all_chars p b)%bool.
Proof.
  induction a as [|c a IH]; cbn [append all_chars]; [reflexivity|].
  rewrite IH, andb_assoc; reflexivity.
Qed.

Lemma lstrip_decompose s :
  exists a, s = (a ++ lstrip s)%string /\ all_chars is_space a = true.
Proof.
  induction s as [|c s (a & Ha & Hsp)]; cbn [lstrip].
  - exists EmptyString; split; reflexivity.
  - destruct (is_space c) eqn:Hc.
    + exists (String c a); split.
      * cbn [append]; f_equal; exact Ha.
      * cbn [all_chars]; rewrite Hc, Hsp; reflexivity.
    + exists EmptyString; split; reflexivity.
Qed.

Lemma lstrip_head s c t : lstrip s = String c t -> is_space c = false.
Proof.
  induction s as [|d s IH]; cbn [lstrip]; [discriminate|].
  destruct (is_space d) eqn:Hd; [exact IH|].
  intros H; inversion H; subst; exact Hd.
Qed.

Lemma lstrip_empty s : lstrip s = EmptyString <-> all_chars is_space s = true.
Proof.
  induction s as [|c s IH]; cbn [lstrip all_chars]; [tauto|].
  destruct (is_space c); cbn [andb]; [exact IH|].
  split; discriminate.
Qed.

Lemma rstrip_empty s : rstrip s = EmptyString <-> all_chars is_space s = true.
Proof.
  induction s as [|c s IH]; cbn [rstrip all_chars]; [tauto|].
  destruct (rstrip s) as [|e r].
  - destruct (is_space c); cbn [andb].
    + split; intros _; [apply IH|]; reflexivity.
    + split; discriminate.
  - split; [discriminate|].
    intros H; apply andb_true_iff in H; destruct H as [_ H].
    apply IH in H; discriminate.
Qed.

Lemma rstrip_decompose s :
  exists b, s = (rstrip s ++ b)%string /\ all_chars is_space b = true.
Proof.
  induction s as [|c s (b & Hb & Hsp)]; cbn [rstrip].
  - exists EmptyString; split; reflexivity.
  - destruct (rstrip s) as [|e r] eqn:Hr.
    + destruct (is_space c) eqn:Hc.
      * exists (String c b); split.
        -- cbn [append] in *; f_equal; exact Hb.
        -- cbn [all_chars]; rewrite Hc, Hsp; reflexivity.
      * exists b; split; [|exact Hsp].
        cbn [str append] in *; f_equal; exact Hb.
    + exists b; split; [|exact Hsp].
      cbn [append] in *; f_equal; exact Hb.
Qed.

Lemma rstrip_last s : forall t c, rstrip s = (t ++ str c)%string -> is_space c = false.
Proof.
  induction s as [|d s IH]; intros t c; cbn [rstrip].
  - destruct t; discriminate.
  - destruct (rstrip s) as [|e r] eqn:Hr.
    + destruct (is_space d) eqn:Hd.
      * destruct t; discriminate.
      * destruct t as [|x [|y t]]; cbn [append str]; intros H; inversion H; subst.
        exact Hd.
    + destruct t as [|x t]; cbn [append str]; intros H; inversion H.
      eapply IH; eassumption.
Qed.

Lemma rstrip_head c t :
  is_space c = false -> exists t', rstrip (String c t) = String c t'.
Proof.
  intros Hc; cbn [rstrip].
  destruct (rstrip t) as [|e r]; [rewrite Hc|]; eexists; reflexivity.
Qed.

Lemma strip_head s c t : strip s = String c t -> is_space c = false.
Proof.
  unfold strip; destruct (lstrip s) as [|d u] eqn:Hl; [discriminate|].
  pose proof (lstrip_head _ _ _ Hl) as Hd.
  destruct (rstrip_head d u Hd) as [t' Ht']; rewrite Ht'.
  intros H; inversion H; subst; exact Hd.
Qed.

Lemma strip_empty s : strip s = EmptyString <-> all_chars is_space s = true.
Proof.
  unfold strip; rewrite rstrip_empty.
  destruct (lstrip_decompose s) as (a & Ha & Hsp).
  rewrite Ha at 2; rewrite all_chars_app, Hsp; reflexivity.
Qed.

Lemma find_from_absent c s :
  has_char (Ascii.eqb c) s = false -> forall i, find_from (str c) s i = -1.
Proof.
  induction s as [|d s IH]; cbn [has_char]; intros H i; [reflexivity|].
  apply orb_false_iff in H; destruct H as [Hd Hs].
  cbn [find_from]; rewrite prefix_char, Ascii.eqb_sym, Hd.
  apply IH; exact Hs.
Qed.

Lemma slice_all {A : Type} (l : list A) : slice l (Some 0) None = l.
Proof.
  unfold slice, adjust_index; cbn [Z.ltb Z.compare].
  rewrite Z.min_l by lia.
  rewrite Z.sub_0_r, Nat2Z.id; cbn [Z.to_nat skipn].
  apply firstn_all.
Qed.

Lemma str_slice_all s : str_slice s (Some 0) None = s.
Proof.
  unfold str_slice; rewrite slice_all; apply string_of_list_ascii_of_string.
Qed.

Lemma replace_char_has_char old new p s :
  p old = p new ->
  has_char p (replace_char old new s) = has_char p s.
Proof.
  intros Hp; unfold replace_char.
  induction s as [|c s IH]; cbn [str_map has_char]; [reflexivity|].
  rewrite IH; f_equal.
  destruct (Ascii.eqb c old) eqn:Hc; [|reflexivity].
  apply Ascii.eqb_eq in Hc; subst; symmetry; exact Hp.
Qed.

Lemma replace_char_all_chars old new p s :
  p old = p new ->
  all_chars p (replace_char old new s) = all_chars p s.
Proof.
  intros Hp; unfold replace_char.
  induction s as [|c s IH]; cbn [str_map all_chars]; [reflexivity|].
  rewrite IH; f_equal.
  destruct (Ascii.eqb c old) eqn:Hc; [|reflexivity].
  apply Ascii.eqb_eq in Hc; subst; symmetry; exact Hp.
Qed.

Lemma replace_char_get old new s :
  forall i, String.get i (replace_char old new s) =
            option_map (fun c => if Ascii.eqb c old then new else c) (String.get i s).
Proof.
  unfold replace_char; induction s as [|c s IH]; intros i; [reflexivity|].
  destruct i as [|i]; cbn [str_map String.get option_map]; [reflexivity|apply IH].
Qed.

Lemma strip_data_whole s :
  has_char (Ascii.eqb rbracket) s = false ->
  strip_data (PyStr s) = Ok (strip (replace_char newline space s)).
Proof.
  intros H; unfold strip_data, find.
  rewrite find_from_absent
    by (rewrite replace_char_has_char; [exact H|reflexivity]).
  change (-1 + 1) with 0; rewrite str_slice_all; reflexivity.
Qed.

(** C10: for a block without a closing bracket, [strip_data] raises
    nothing and returns the whole block, each newline replaced by one
    space, without its leading and trailing whitespace: the block with
    the newlines replaced is the result between two runs of whitespace,
    and the result neither starts nor ends with whitespace.  The result is
    empty only for a block of whitespace. *)
Theorem strip_data_no_bracket (s : string)
    (Hno : has_char (Ascii.eqb rbracket) s = false) :
  exists body a b,
    strip_data (PyStr s) = Ok body
    /\ (forall i, String.get i (replace_char newline space s) =
                  option_map (fun c => if Ascii.eqb c newline then space else c)
                             (String.get i s))
    /\ replace_char newline space s = (a ++ body ++ b)%string
    /\ all_chars is_space a = true
    /\ all_chars is_space b = true
    /\ (forall c t, body = String c t -> is_space c = false)
    /\ (forall t c, body = (t ++ str c)%string -> is_space c = false)
    /\ (body = EmptyString <-> all_chars is_space s = true).
Proof.
  set (cleaned := replace_char newline space s).
  destruct (lstrip_decompose cleaned) as (a & Ha & Hsa).
  destruct (rstrip_decompose (lstrip cleaned)) as (b & Hb & Hsb).
  exists (strip cleaned), a, b.
  split; [apply strip_data_whole; exact Hno|].
  split; [apply replace_char_get|].
  split; [unfold strip; rewrite <- Hb; exact Ha|].
  split; [exact Hsa|].
  split; [exact Hsb|].
  split; [intros c t; apply strip_head|].
  split; [intros t c; apply rstrip_last|].
  rewrite strip_empty; unfold cleaned.
  rewrite replace_char_all_chars by reflexivity; reflexivity.
Qed.

Lemma strip_data_no_bracket_witness :
  has_char (Ascii.eqb rbracket) (" Often" ++ str newline ++ "Never ") = false
  /\ exists body,
       strip_data (PyStr (" Often" ++ str newline ++ "Never ")) = Ok body
       /\ (forall c t, body = String c t -> is_space c = false)
       /\ (body = EmptyString
           <-> all_chars is_space (" Often" ++ str newline ++ "Never ") = true).
Proof.
  split; [reflexivity|].
  destruct (strip_data_no_bracket (" Often" ++ str newline ++ "Never ") eq_refl)
    as (body & a & b & H1 & _ & _ & _ & _ & H6 & _ & H8).
  exists body; split; [exact H1|]; split; [exact H6|exact H8].
Defined.

(** ** The block cleaner *)

Lemma extract_feeling_str_error s sg e :
  extract_feeling (PyStr s) sg = inl e -> is_IndexError e = true.
Proof.
  unfold extract_feeling.
  destruct (sg <? 0); [intros H; inversion H; reflexivity|].
  destruct (sg >=? _); [intros H; inversion H; reflexivity|].
  destruct (nth_error _ _); intros H; inversion H; reflexivity.
Qed.

Lemma strip_data_str s : exists body, strip_data (PyStr s) = Ok body.
Proof. eexists; reflexivity. Qed.

Lemma clean_block_str block acc :
  clean_block (PyStr block) acc = (block_trace block, Ok (acc ++ block_pairs block)).
Proof.
  unfold clean_block, block_trace, block_pairs.
  destruct (extract_feeling (PyStr block) 0) as [e|label] eqn:He.
  - rewrite (extract_feeling_str_error _ _ _ He), orb_true_r, app_nil_r.
    reflexivity.
  - destruct (strip_data_str block) as [body Hb]; rewrite Hb; reflexivity.
Qed.

Lemma clean_loop_str blocks :
  forall acc,
    clean_loop (map PyStr blocks) acc =
    (flat_map block_trace blocks, Ok (acc ++ flat_map block_pairs blocks)).
Proof.
  induction blocks as [|b blocks IH]; intros acc; cbn [map clean_loop flat_map].
  - rewrite app_nil_r; reflexivity.
  - rewrite clean_block_str; unfold Ok at 1; rewrite IH, <- app_assoc.
    reflexivity.
Qed.

Lemma forallb_isinstance_str blocks :
  forallb isinstance_str (map PyStr blocks) = true.
Proof. induction blocks; cbn [map forallb isinstance_str andb]; auto. Qed.

Lemma clean_data_str blocks :
  clean_data (PyList (map PyStr blocks)) =
  (flat_map block_trace blocks,
   Ok (match flat_map block_pairs blocks with
       | [] => None
       | p :: ps => Some (p :: ps)
       end)).
Proof.
  unfold clean_data; rewrite forallb_isinstance_str, clean_loop_str.
  cbn [app bind Ok].
  destruct (flat_map block_pairs blocks); reflexivity.
Qed.

Lemma block_pairs_survivor block :
  survives block = true ->
  exists label body,
    extract_feeling (PyStr block) 0 = Ok label
    /\ strip_data (PyStr block) = Ok body
    /\ block_pairs block = [(label, body)].
Proof.
  unfold survives, block_pairs.
  destruct (extract_feeling (PyStr block) 0) as [e|label]; [discriminate|].
  destruct (strip_data_str block) as [body Hb]; rewrite Hb.
  intros _; exists label, body; repeat split.
Qed.

Lemma block_pairs_skipped block :
  survives block = false -> block_pairs block = [].
Proof.
  unfold survives, block_pairs.
  destruct (extract_feeling (PyStr block) 0); [reflexivity|discriminate].
Qed.

Lemma pairs_of_survivors blocks :
  Forall2 (fun block p =>
             extract_feeling (PyStr block) 0 = Ok (fst p)
             /\ strip_data (PyStr block) = Ok (snd p))
          (filter survives blocks) (flat_map block_pairs blocks).
Proof.
  induction blocks as [|b blocks IH]; cbn [filter flat_map]; [constructor|].
  destruct (survives b) eqn:Hs.
  - destruct (block_pairs_survivor b Hs) as (label & body & He & Hb & Hp).
    rewrite Hp; cbn [app]; constructor; [split; assumption|exact IH].
  - rewrite (block_pairs_skipped b Hs); exact IH.
Qed.

Lemma stdout_app t t' : stdout (t ++ t') = stdout t ++ stdout t'.
Proof. apply flat_map_app. Qed.

Lemma stdout_trace blocks :
  stdout (flat_map block_trace blocks) = flat_map block_diagnostic blocks.
Proof.
  induction blocks as [|b blocks IH]; [reflexivity|].
  cbn [flat_map]; rewrite stdout_app, IH; f_equal.
  unfold block_trace, block_diagnostic.
  destruct (extract_feeling (PyStr b) 0); reflexivity.
Qed.

Lemma extract_calls_trace blocks :
  extract_calls (flat_map block_trace blocks) = map PyStr blocks.
Proof.
  unfold extract_calls; induction blocks as [|b blocks IH]; [reflexivity|].
  cbn [flat_map map]; rewrite flat_map_app, IH.
  unfold block_trace; destruct (extract_feeling (PyStr b) 0); reflexivity.
Qed.

Lemma strip_call_survivor blocks b :
  In (Call_strip_data (PyStr b)) (flat_map block_trace blocks) ->
  In b blocks /\ survives b = true.
Proof.
  rewrite in_flat_map; intros (b' & Hin & Hev).
  unfold block_trace in Hev; unfold survives.
  destruct (extract_feeling (PyStr b') 0) as [e|label] eqn:He; cbn [In] in Hev.
  - destruct Hev as [H|[H|[]]]; discriminate.
  - destruct Hev as [H|[H|[]]]; [discriminate|].
    inversion H; subst; rewrite He; split; [assumption|reflexivity].
Qed.

(** C6: for every list of text blocks [clean_data] returns and raises
    nothing.  Its pairs are those of the blocks on which [extract_feeling]
    succeeds, in their order: label and normalized body of each.  Each
    block on which [extract_feeling] raises gives one printed diagnostic
    with the error's message and no pair, [strip_data] is called on
    surviving blocks only, and [extract_feeling] is called on every block
    of the list, in order. *)
Theorem clean_data_partial_failure (blocks : list string) :
  exists t pairs,
    clean_data (PyList (map PyStr blocks)) =
      (t, Ok (match pairs with [] => None | _ :: _ => Some pairs end))
    /\ Forall2 (fun block p =>
                  extract_feeling (PyStr block) 0 = Ok (fst p)
                  /\ strip_data (PyStr block) = Ok (snd p))
               (filter survives blocks) pairs
    /\ stdout t = flat_map block_diagnostic blocks
    /\ (forall block error,
          In block blocks ->
          extract_feeling (PyStr block) 0 = Raise error ->
          In (Print (extract_diagnostic error)) t
          /\ ~ In (Call_strip_data (PyStr block)) t)
    /\ (forall block, In (Call_strip_data (PyStr block)) t ->
          In block blocks /\ survives block = true)
    /\ extract_calls t = map PyStr blocks.
Proof.
  exists (flat_map block_trace blocks), (flat_map block_pairs blocks).
  split.
  { rewrite clean_data_str; destruct (flat_map block_pairs blocks); reflexivity. }
  split; [apply pairs_of_survivors|].
  split; [apply stdout_trace|].
  split; [|split; [intros b; apply strip_call_survivor|apply extract_calls_trace]].
  intros b e Hin He; split.
  - apply in_flat_map; exists b; split; [exact Hin|].
    unfold block_trace; unfold Raise in He; rewrite He; right; left; reflexivity.
  - intros Hc; apply strip_call_survivor in Hc; destruct Hc as [_ Hs].
    unfold survives in Hs; unfold Raise in He; rewrite He in Hs; discriminate.
Qed.

(** C8: when no block of the list survives, [clean_data] returns [None],
    the value of a call that ends without [return]; a list it returns is
    never empty and holds a pair of a surviving block, so that no pairs
    ([None]) differs from pairs of empty bodies. *)
Theorem clean_data_no_survivor (blocks : list string)
    (Hnone : Forall (fun block => survives block = false) blocks) :
  (exists t, clean_data (PyList (map PyStr blocks)) = (t, Ok None))
  /\ (forall blocks' t' pairs,
        clean_data (PyList (map PyStr blocks')) = (t', Ok (Some pairs)) ->
        pairs <> [] /\ exists block, In block blocks' /\ survives block = true).
Proof.
  split.
  - exists (flat_map block_trace blocks); rewrite clean_data_str.
    replace (flat_map block_pairs blocks) with (@nil (string * string));
      [reflexivity|].
    symmetry; induction Hnone as [|b bs Hb _ IH]; [reflexivity|].
    cbn [flat_map]; rewrite (block_pairs_skipped b Hb); exact IH.
  - intros blocks' t' pairs; rewrite clean_data_str; intros H.
    destruct (flat_map block_pairs blocks') as [|p ps] eqn:Hp;
      inversion H; subst.
    split; [discriminate|].
    assert (Hin : In p (flat_map block_pairs blocks')) by (rewrite Hp; left; reflexivity).
    apply in_flat_map in Hin; destruct Hin as (b & Hb & Hpb).
    exists b; split; [exact Hb|].
    destruct (survives b) eqn:Hs; [reflexivity|].
    rewrite (block_pairs_skipped b Hs) in Hpb; destruct Hpb.
Qed.

Lemma clean_data_no_survivor_witness :
  Forall (fun block => survives block = false) ["Timestamp"; "no brackets here"]
  /\ (exists t, clean_data (PyList (map PyStr ["Timestamp"; "no brackets here"]))
                = (t, Ok None))
  /\ snd (clean_data (PyList [PyStr "[Bored]"])) = Ok (Some [("Bored", EmptyString)]).
Proof.
  assert (H : Forall (fun block => survives block = false)
                ["Timestamp"; "no brackets here"])
    by (repeat constructor).
  split; [exact H|].
  split; [exact (proj1 (clean_data_no_survivor _ H))|reflexivity].
Defined.

(** ** The scenario of the specification *)

(** C1: on the block of the scenario [clean_data] returns the one pair of
    the label Supported and the body of the six answers, and prints
    nothing; [find_weights] on that body returns 2/3, 1, 2/3, 2/3, 1/3, 0;
    and the mean of those weights, their sum 10/3 over 6, is 5/9, between
    0.555 and 0.556. *)
Theorem scenario_supported :
  snd (clean_data (PyList [PyStr scenario_block])) =
    Ok (Some [("Supported", "Often Always Often Often Sometimes Never")])
  /\ stdout (fst (clean_data (PyList [PyStr scenario_block]))) = []
  /\ find_weights (PyStr "Often Always Often Often Sometimes Never") =
       Ok [Some (2 # 3); Some 1%Q; Some (2 # 3); Some (2 # 3); Some (1 # 3); Some 0%Q]
  /\ exists m,
       np_mean [Some (2 # 3); Some 1%Q; Some (2 # 3); Some (2 # 3); Some (1 # 3); Some 0%Q]
         = Ok (Num m)
       /\ (m == 5 # 9)%Q
       /\ (555 # 1000 < m)%Q /\ (m < 556 # 1000)%Q.
Proof.
  split; [vm_compute; reflexivity|].
  split; [vm_compute; reflexivity|].
  split; [vm_compute; reflexivity|].
  eexists; split; [vm_compute; reflexivity|].
  split; [reflexivity|split; reflexivity].
Qed.

(** The mean of the scenario's weights is not 11/18: it is below 0.6. *)
Lemma scenario_mean_not_eleven_eighteenths :
  exists m,
    np_mean [Some (2 # 3); Some 1%Q; Some (2 # 3); Some (2 # 3); Some (1 # 3); Some 0%Q]
      = Ok (Num m)
    /\ ~ (m == 11 # 18)%Q
    /\ (m < 6 # 10)%Q.
Proof.
  eexists; split; [vm_compute; reflexivity|].
  split; [intros H; vm_compute in H; discriminate|reflexivity].
Qed.

(** ** The feeling record and its average *)

Lemma add_reduce_numbers qs :
  forall total,
    exists total', add_reduce total (map Some qs) = Ok total'
                   /\ (total' == total + Qsum qs)%Q.
Proof.
  induction qs as [|q qs IH]; intros total; cbn [map add_reduce Qsum fold_right].
  - exists total; split; [reflexivity|ring].
  - destruct (IH (total + q)%Q) as (t & Ht & Heq).
    exists t; split; [exact Ht|].
    rewrite Heq; unfold Qsum; ring.
Qed.

Lemma add_reduce_none ws :
  In None ws -> forall total, exists msg, add_reduce total ws = Raise (TypeError msg).
Proof.
  induction ws as [|w ws IH]; intros Hin total; [destruct Hin|].
  destruct w as [q|]; cbn [add_reduce].
  - destruct Hin as [H|H]; [discriminate|apply IH; exact H].
  - eexists; reflexivity.
Qed.

Lemma np_mean_numbers q qs :
  exists m, np_mean (map Some (q :: qs)) = Ok (Num m)
            /\ (m * inject_Z (Z.of_nat (List.length (q :: qs))) == Qsum (q :: qs))%Q.
Proof.
  unfold np_mean; cbn [map].
  change (Some q :: map Some qs) with (map Some (q :: qs)).
  destruct (add_reduce_numbers (q :: qs) 0%Q) as (t & Ht & Heq).
  rewrite Ht; cbn [bind Ok]; rewrite length_map.
  eexists; split; [reflexivity|].
  rewrite Heq, Qplus_0_l.
  unfold Qdiv; rewrite <- Qmult_assoc, (Qmult_comm (/ _)), Qmult_inv_r, Qmult_1_r;
    [reflexivity|].
  cbn [List.length]; unfold Qeq; cbn [Qnum Qden inject_Z]; lia.
Qed.

Lemma np_mean_none ws :
  In None ws -> exists msg, np_mean ws = Raise (TypeError msg).
Proof.
  intros Hin; unfold np_mean.
  destruct ws as [|w ws]; [destruct Hin|].
  destruct (add_reduce_none (w :: ws) Hin 0%Q) as [msg Hm].
  rewrite Hm; exists msg; reflexivity.
Qed.

(** C4: a call of [update_weights] leaves [new_weights] in [weights].
    When [new_weights] holds numbers only, the call returns and
    [average_weight] is the mean over all entries of [weights]: nan for the
    empty list, and otherwise the number whose product with the length is
    the sum of the entries.  When [new_weights] holds [None], the mean is
    not computed: [np.mean] raises TypeError and the call raises it. *)
Theorem update_weights_average (self : Data) :
  (forall qs,
      exists self',
        update_weights self (map Some qs) = (self', Ok tt)
        /\ weights self' = map Some qs
        /\ feeling self' = feeling self /\ data self' = data self
        /\ np_mean (weights self') = Ok (average_weight self')
        /\ (qs = [] -> average_weight self' = NaN)
        /\ (qs <> [] ->
            exists m, average_weight self' = Num m
                      /\ (m * inject_Z (Z.of_nat (List.length qs)) == Qsum qs)%Q))
  /\ (forall new_weights,
        In None new_weights ->
        exists self' msg,
          update_weights self new_weights = (self', Raise (TypeError msg))
          /\ weights self' = new_weights).
Proof.
  split.
  - intros [|q qs].
    + eexists; split; [reflexivity|].
      cbn; repeat split; try reflexivity. congruence.
    + destruct (np_mean_numbers q qs) as (m & Hm & Hq).
      unfold update_weights, update_average_weight;
        cbn [weights feeling data average_weight].
      rewrite Hm; eexists; split; [reflexivity|].
      cbn [weights feeling data average_weight].
      repeat split; try assumption; try discriminate.
      intros _; exists m; split; [reflexivity|exact Hq].
  - intros ws Hin; destruct (np_mean_none ws Hin) as [msg Hm].
    unfold update_weights, update_average_weight; cbn [weights].
    rewrite Hm; eexists; exists msg; split; reflexivity.
Qed.

Lemma update_weights_average_witness :
  In None [Some 1%Q; None]
  /\ exists self' msg,
       update_weights (Data_init "Bored" "Always The") [Some 1%Q; None]
         = (self', Raise (TypeError msg))
       /\ weights self' = [Some 1%Q; None].
Proof.
  assert (H : In None [Some 1%Q; None]) by (right; left; reflexivity).
  split; [exact H|].
  exact (proj2 (update_weights_average (Data_init "Bored" "Always The")) _ H).
Defined.

(** On weights that hold [None] the call raises and the record keeps the
    average it had, here the 0 of its creation, beside the new weights:
    the average is not nan, and it is not the mean of the weights. *)
Lemma update_weights_none_keeps_average :
  exists self' msg,
    update_weights (Data_init "Bored" "Always The") [Some 1%Q; None]
      = (self', Raise (TypeError msg))
    /\ weights self' = [Some 1%Q; None]
    /\ average_weight self' = Num 0
    /\ average_weight self' <> NaN
    /\ np_mean (weights self') <> Ok (average_weight self').
Proof.
  eexists; eexists; split; [reflexivity|].
  cbn; repeat split; discriminate.
Qed.

(** ** The registry *)

Lemma populate_all_append pairs :
  forall registry,
    populate_all pairs registry =
    registry ++ map (fun p => Data_init (fst p) (snd p)) pairs.
Proof.
  unfold populate_all; induction pairs as [|p pairs IH]; intros registry;
    cbn [fold_left map].
  - rewrite app_nil_r; reflexivity.
  - cbn [populate_dataset fst]; rewrite IH, <- app_assoc; reflexivity.
Qed.

(** C7: [populate_dataset] on two texts appends one record to the
    registry and raises nothing; the record holds the label and the body,
    the empty list of weights and the average 0.  The records before it
    are kept in place, a run of calls leaves the records in the order of
    the calls, and a second call with the same label appends a second
    record. *)
Theorem populate_dataset_appends (feeling_ feeling_data : string) (registry : list Data) :
  exists record,
    populate_dataset (PyStr feeling_) (PyStr feeling_data) registry
      = (registry ++ [record], Ok tt)
    /\ feeling record = feeling_ /\ data record = feeling_data
    /\ weights record = []
    /\ average_weight record = Num 0
    /\ List.length (registry ++ [record]) = S (List.length registry)
    /\ (forall i, (i < List.length registry)%nat ->
                  nth_error (registry ++ [record]) i = nth_error registry i)
    /\ (forall pairs,
          populate_all pairs registry =
          registry ++ map (fun p => Data_init (fst p) (snd p)) pairs)
    /\ (forall other_data,
          exists record',
            populate_dataset (PyStr feeling_) (PyStr other_data) (registry ++ [record])
              = (registry ++ [record; record'], Ok tt)
            /\ feeling record' = feeling_ /\ data record' = other_data
            /\ List.length (registry ++ [record; record']) = S (S (List.length registry))).
Proof.
  exists (Data_init feeling_ feeling_data).
  split; [reflexivity|].
  repeat (split; [reflexivity|]).
  split; [rewrite length_app, Nat.add_comm; reflexivity|].
  split; [intros i Hi; apply nth_error_app1; exact Hi|].
  split; [intros pairs; apply populate_all_append|].
  intros other; exists (Data_init feeling_ other).
  split; [cbn [populate_dataset]; rewrite <- app_assoc; reflexivity|].
  repeat (split; [reflexivity|]).
  rewrite length_app, Nat.add_comm; reflexivity.
Qed.

(** A record as [populate_dataset] creates it has the average 0, a
    number, while the mean of its empty weights is nan. *)
Lemma populate_dataset_average_defined :
  exists record,
    populate_dataset (PyStr "Bored") (PyStr "Never Sometimes Often") []
      = ([record], Ok tt)
    /\ weights record = []
    /\ average_weight record = Num 0
    /\ average_weight record <> NaN
    /\ np_mean (weights record) = Ok NaN.
Proof.
  eexists; split; [reflexivity|].
  cbn; repeat split; discriminate.
Qed.

(** ** The segmenter *)

Lemma adjust_index_range len i : 0 <= len -> 0 <= adjust_index len i <= len.
Proof. unfold adjust_index; destruct (i <? 0) eqn:H; lia. Qed.

Lemma slice_nth_error {A : Type} (l : list A) (start stop : Z) (i : nat) :
  0 <= start ->
  nth_error (firstn (Z.to_nat (stop - start)) (skipn (Z.to_nat start) l)) i =
  if Z.of_nat i <? stop - start then nth_error l (Z.to_nat start + i) else None.
Proof.
  intros Hs; rewrite nth_error_firstn, nth_error_skipn.
  destruct (Z.of_nat i <? stop - start) eqn:Hi.
  - apply Z.ltb_lt in Hi.
    replace (i <? Z.to_nat (stop - start))%nat with true; [reflexivity|].
    symmetry; apply Nat.ltb_lt; lia.
  - apply Z.ltb_ge in Hi.
    replace (i <? Z.to_nat (stop - start))%nat with false; [reflexivity|].
    symmetry; apply Nat.ltb_ge; lia.
Qed.

Lemma slice_length {A : Type} (l : list A) (start stop : Z) :
  0 <= start -> stop <= Z.of_nat (List.length l) ->
  List.length (firstn (Z.to_nat (stop - start)) (skipn (Z.to_nat start) l)) =
  Z.to_nat (stop - start).
Proof.
  intros Hs He; rewrite length_firstn, length_skipn; lia.
Qed.

Lemma split_nonempty_separator contents delimiter :
  delimiter <> EmptyString ->
  split contents delimiter = Ok (split_from delimiter 0 contents).
Proof. destruct delimiter; [congruence|reflexivity]. Qed.

(** C9: when the file exists and the delimiter is not empty,
    [get_data_from_file] returns for all integer indices, and raises
    nothing: the result is the run of the blocks from [start] up to and
    without [stop], where a bound that is not negative is cut at the
    number of blocks, a negative bound counts from the end and is cut at
    0, and a missing upper bound is the number of blocks.  The result is
    never longer than the list of blocks, and empty when [stop] is not
    past [start].  For bounds that are not negative the entry at position
    [i] of the result is the block at [lower_index + i] as long as that is
    below the upper bound. *)
Theorem get_data_from_file_slice (files : string -> option string)
    (file contents delimiter : string) (lower_index : Z) (upper_index : option Z)
    (Hfile : files file = Some contents) (Hdelimiter : delimiter <> EmptyString) :
  exists blocks out,
    split contents delimiter = Ok blocks
    /\ get_data_from_file files file delimiter lower_index upper_index = Ok out
    /\ let len := Z.of_nat (List.length blocks) in
       let bound i := if i <? 0 then Z.max 0 (i + len) else Z.min i len in
       let start := bound lower_index in
       let stop := match upper_index with Some upper => bound upper | None => len end in
       List.length out = Z.to_nat (stop - start)
       /\ (List.length out <= List.length blocks)%nat
       /\ (forall i, nth_error out i =
                     if Z.of_nat i <? stop - start
                     then nth_error blocks (Z.to_nat start + i) else None)
       /\ (0 <= lower_index ->
           match upper_index with Some upper => 0 <= upper | None => True end ->
           forall i, nth_error out i =
                     if match upper_index with
                        | Some upper => lower_index + Z.of_nat i <? upper
                        | None => true
                        end
                     then nth_error blocks (Z.to_nat lower_index + i) else None).
Proof.
  set (blocks := split_from delimiter 0 contents).
  set (len := Z.of_nat (List.length blocks)).
  set (stop := match upper_index with
               | Some upper => adjust_index len upper
               | None => len
               end).
  set (start := adjust_index len lower_index).
  assert (Hlen : 0 <= len) by (unfold len; lia).
  assert (Hstart : 0 <= start <= len) by (apply adjust_index_range; exact Hlen).
  assert (Hstop : 0 <= stop <= len).
  { unfold stop; destruct upper_index; [apply adjust_index_range; exact Hlen|lia]. }
  exists blocks, (firstn (Z.to_nat (stop - start)) (skipn (Z.to_nat start) blocks)).
  split; [apply split_nonempty_separator; exact Hdelimiter|].
  split.
  { unfold get_data_from_file; rewrite Hfile.
    rewrite (split_nonempty_separator _ _ Hdelimiter); cbn [bind Ok].
    fold blocks; unfold slice; fold len; fold start.
    destruct upper_index as [upper|]; [reflexivity|].
    unfold stop; replace (adjust_index len len) with len; [reflexivity|].
    unfold adjust_index; destruct (len <? 0) eqn:H; lia. }
  fold len; change (fun i => if i <? 0 then Z.max 0 (i + len) else Z.min i len)
    with (adjust_index len); cbv zeta; fold start; fold stop.
  assert (Hnth : forall i,
            nth_error (firstn (Z.to_nat (stop - start)) (skipn (Z.to_nat start) blocks)) i =
            if Z.of_nat i <? stop - start
            then nth_error blocks (Z.to_nat start + i) else None).
  { intros i; apply slice_nth_error; lia. }
  assert (Hl : List.length
                 (firstn (Z.to_nat (stop - start)) (skipn (Z.to_nat start) blocks)) =
               Z.to_nat (stop - start)).
  { apply slice_length; [lia|fold len; lia]. }
  split; [exact Hl|].
  split; [rewrite Hl; unfold len in *; lia|].
  split; [exact Hnth|].
  intros Hlo Hup i; rewrite Hnth.
  assert (Hs : start = Z.min lower_index len).
  { unfold start, adjust_index; destruct (lower_index <? 0) eqn:H; [|reflexivity].
    apply Z.ltb_lt in H; lia. }
  assert (Hnone : forall n, (List.length blocks <= n)%nat -> nth_error blocks n = None)
    by (intros n; apply nth_error_None).
  destruct upper_index as [upper|].
  - assert (He : stop = Z.min upper len).
    { unfold stop, adjust_index; destruct (upper <? 0) eqn:H; [|reflexivity].
      apply Z.ltb_lt in H; lia. }
    destruct (Z.of_nat i <? stop - start) eqn:H1;
      destruct (lower_index + Z.of_nat i <? upper) eqn:H2;
      try apply Z.ltb_lt in H1; try apply Z.ltb_lt in H2;
      try apply Z.ltb_ge in H1; try apply Z.ltb_ge in H2.
    + f_equal; lia.
    + lia.
    + symmetry; apply Hnone; unfold len in *; lia.
    + reflexivity.
  - destruct (Z.of_nat i <? stop - start) eqn:H1;
      try apply Z.ltb_lt in H1; try apply Z.ltb_ge in H1.
    + f_equal; unfold stop in *; lia.
    + symmetry; apply Hnone; unfold stop, len in *; lia.
Qed.

Lemma get_data_from_file_slice_witness :
  one_file "survey.dat" "a---b---c---d" "survey.dat" = Some "a---b---c---d"
  /\ "---" <> EmptyString
  /\ get_data_from_file (one_file "survey.dat" "a---b---c---d")
       "survey.dat" "---" 1 (Some 7) = Ok ["b"; "c"; "d"]
  /\ exists blocks out,
       split "a---b---c---d" "---" = Ok blocks
       /\ get_data_from_file (one_file "survey.dat" "a---b---c---d")
            "survey.dat" "---" (-3) (Some 7) = Ok out
       /\ (List.length out <= List.length blocks)%nat.
Proof.
  assert (Hf : one_file "survey.dat" "a---b---c---d" "survey.dat"
               = Some "a---b---c---d") by reflexivity.
  assert (Hd : "---" <> EmptyString) by discriminate.
  split; [exact Hf|]. split; [exact Hd|]. split; [reflexivity|].
  destruct (get_data_from_file_slice _ _ _ _ (-3) (Some 7) Hf Hd)
    as (blocks & out & H1 & H2 & _ & H4 & _).
  exists blocks, out; repeat split; assumption.
Defined.

(** With the empty delimiter [str.split] raises ValueError and no slice
    is returned. *)
Lemma get_data_from_file_empty_delimiter :
  one_file "survey.dat" "a---b" "survey.dat" = Some "a---b"
  /\ get_data_from_file (one_file "survey.dat" "a---b") "survey.dat" EmptyString 0 None
     = Raise (ValueError "empty separator")
  /\ ~ (exists out,
          get_data_from_file (one_file "survey.dat" "a---b") "survey.dat"
            EmptyString 0 None = Ok out).
Proof.
  split; [reflexivity|]. split; [reflexivity|].
  intros [out H]; discriminate.
Qed.

(** A negative lower index counts from the end: the result is not the
    blocks at the positions from the index on. *)
Lemma get_data_from_file_negative_index :
  get_data_from_file (one_file "survey.dat" "a---b---c") "survey.dat" "---" (-1) None
  = Ok ["c"].
Proof. reflexivity. Qed.

(** ** The ranking *)

Lemma py_lt_true a b : py_lt a b = true <-> num_lt a b.
Proof.
  destruct a as [x|], b as [y|]; cbn [py_lt num_lt];
    try (split; [discriminate|tauto]).
  rewrite Qlt_alt; destruct (x ?= y)%Q; split; congruence.
Qed.

Lemma py_lt_false a b :
  is_nan a = false -> is_nan b = false -> py_lt a b = false -> num_le b a.
Proof.
  destruct a as [x|], b as [y|]; cbn [is_nan py_lt num_le]; try discriminate.
  intros _ _ H; apply Qnot_lt_le; rewrite Qlt_alt.
  destruct (x ?= y)%Q; congruence.
Qed.

Section SortFacts.
Variable A : Type.
Variable key : A -> pynum.

Local Abbreviation defined := (key_defined key).
Local Abbreviation ascending := (key_ascending key).
Local Abbreviation descending := (key_descending key).

Lemma insert_perm x l : Permutation (insert key x l) (x :: l).
Proof.
  induction l as [|y l IH]; cbn [insert]; [reflexivity|].
  destruct (py_lt (key y) (key x)); [|reflexivity].
  rewrite IH; apply perm_swap.
Qed.

Lemma stable_sort_perm l : Permutation (stable_sort key l) l.
Proof.
  induction l as [|x l IH]; cbn [stable_sort]; [reflexivity|].
  rewrite insert_perm, IH; reflexivity.
Qed.

Lemma insert_Forall (P : A -> Prop) x l :
  P x -> Forall P l -> Forall P (insert key x l).
Proof.
  intros Hx; induction 1 as [|y l Hy Hl IH]; cbn [insert].
  - repeat constructor; exact Hx.
  - destruct (py_lt (key y) (key x)); repeat constructor; assumption.
Qed.

Lemma stable_sort_Forall (P : A -> Prop) l :
  Forall P l -> Forall P (stable_sort key l).
Proof.
  induction 1 as [|x l Hx Hl IH]; cbn [stable_sort]; [constructor|].
  apply insert_Forall; assumption.
Qed.

Lemma ascending_trans a b c : ascending a b -> ascending b c -> ascending a c.
Proof.
  unfold ascending, num_le.
  destruct (key a), (key b), (key c); try tauto; apply Qle_trans.
Qed.

Lemma insert_sorted x l :
  defined x -> Forall defined l ->
  StronglySorted ascending l -> StronglySorted ascending (insert key x l).
Proof.
  intros Hx Hdef Hs; induction Hs as [|y l Hs IH Hy]; cbn [insert].
  - repeat constructor.
  - inversion Hdef as [|? ? Hdy Hdl]; subst.
    destruct (py_lt (key y) (key x)) eqn:Hlt.
    + constructor; [apply IH; exact Hdl|].
      apply insert_Forall; [|exact Hy].
      apply py_lt_true in Hlt; unfold ascending, num_le.
      unfold num_lt in Hlt; destruct (key y), (key x); try tauto.
      apply Qlt_le_weak; exact Hlt.
    + assert (Hxy : ascending x y) by (apply py_lt_false; assumption).
      constructor; [constructor; assumption|].
      constructor; [exact Hxy|].
      eapply Forall_impl; [|exact Hy].
      intros z Hz; eapply ascending_trans; eassumption.
Qed.

Lemma stable_sort_sorted l :
  Forall defined l -> StronglySorted ascending (stable_sort key l).
Proof.
  induction 1 as [|x l Hx Hl IH]; cbn [stable_sort]; [constructor|].
  apply insert_sorted; [exact Hx|apply stable_sort_Forall; exact Hl|exact IH].
Qed.

Lemma has_value_eq k a b :
  has_value k (key a) = true -> has_value k (key b) = true ->
  num_eq (key a) (key b).
Proof.
  unfold has_value, num_eq; destruct (key a), (key b); try discriminate.
  rewrite !Qeq_bool_iff; intros H1 H2; rewrite H1, H2; reflexivity.
Qed.

Lemma num_lt_not_eq a b : num_lt a b -> ~ num_eq a b.
Proof.
  destruct a, b; cbn [num_lt num_eq]; try tauto.
  intros Hlt Heq; rewrite Heq in Hlt; revert Hlt; apply Qlt_irrefl.
Qed.

(** Insertion keeps, among the entries of one value, the new entry in
    front: the sort is stable. *)
Lemma insert_filter k x l :
  filter (fun a => has_value k (key a)) (insert key x l) =
  filter (fun a => has_value k (key a)) (x :: l).
Proof.
  induction l as [|y l IH]; cbn [insert]; [reflexivity|].
  destruct (py_lt (key y) (key x)) eqn:Hlt; [|reflexivity].
  apply py_lt_true in Hlt.
  cbn [filter] in *; rewrite IH.
  destruct (has_value k (key y)) eqn:Hy; [|reflexivity].
  destruct (has_value k (key x)) eqn:Hx; [|reflexivity].
  exfalso; apply (num_lt_not_eq _ _ Hlt).
  apply (has_value_eq k); assumption.
Qed.

Lemma stable_sort_filter k l :
  filter (fun a => has_value k (key a)) (stable_sort key l) =
  filter (fun a => has_value k (key a)) l.
Proof.
  induction l as [|x l IH]; cbn [stable_sort]; [reflexivity|].
  rewrite insert_filter; cbn [filter]; rewrite IH; reflexivity.
Qed.

Lemma StronglySorted_snoc (R : A -> A -> Prop) l x :
  StronglySorted R l -> Forall (fun y => R y x) l -> StronglySorted R (l ++ [x]).
Proof.
  induction 1 as [|y l Hs IH Hy]; intros Hx; cbn [app].
  - repeat constructor.
  - inversion Hx; subst; constructor; [apply IH; assumption|].
    apply Forall_app; split; [exact Hy|repeat constructor; assumption].
Qed.

Lemma StronglySorted_rev (R : A -> A -> Prop) l :
  StronglySorted R l -> StronglySorted (fun a b => R b a) (rev l).
Proof.
  induction 1 as [|x l Hs IH Hx]; cbn [rev]; [constructor|].
  apply StronglySorted_snoc; [exact IH|apply Forall_rev; exact Hx].
Qed.

Lemma list_sort_reverse_perm l : Permutation (list_sort key true l) l.
Proof.
  unfold list_sort.
  rewrite <- Permutation_rev, stable_sort_perm, <- Permutation_rev; reflexivity.
Qed.

Lemma list_sort_reverse_sorted l :
  Forall defined l -> StronglySorted descending (list_sort key true l).
Proof.
  intros Hdef; unfold list_sort.
  apply (StronglySorted_rev ascending), stable_sort_sorted, Forall_rev, Hdef.
Qed.

Lemma list_sort_reverse_stable k l :
  filter (fun a => has_value k (key a)) (list_sort key true l) =
  filter (fun a => has_value k (key a)) l.
Proof.
  unfold list_sort.
  rewrite filter_rev, stable_sort_filter, filter_rev, rev_involutive.
  reflexivity.
Qed.

Lemma distinct_filter_length k l :
  ForallOrdPairs (fun a b => ~ num_eq (key a) (key b)) l ->
  (List.length (filter (fun a => has_value k (key a)) l) <= 1)%nat.
Proof.
  induction 1 as [|a l Ha Hl IH]; cbn [filter List.length]; [lia|].
  destruct (has_value k (key a)) eqn:Hk; [|exact IH].
  replace (filter (fun a => has_value k (key a)) l) with (@nil A);
    [cbn [List.length]; lia|].
  symmetry; clear IH Hl.
  induction Ha as [|b l Hb Hl IH]; cbn [filter]; [reflexivity|].
  destruct (has_value k (key b)) eqn:Hkb; [|exact IH].
  exfalso; apply Hb; apply (has_value_eq k); assumption.
Qed.

Lemma filter_length_In k a l :
  In a l -> has_value k (key a) = true ->
  (1 <= List.length (filter (fun a => has_value k (key a)) l))%nat.
Proof.
  intros Hin Hk.
  assert (H : In a (filter (fun a => has_value k (key a)) l))
    by (apply filter_In; split; assumption).
  destruct (filter (fun a => has_value k (key a)) l); [destruct H|].
  cbn [List.length]; lia.
Qed.

Lemma sorted_distinct_strict l :
  StronglySorted descending l ->
  (forall k, (List.length (filter (fun a => has_value k (key a)) l) <= 1)%nat) ->
  StronglySorted (fun a b => num_lt (key b) (key a)) l.
Proof.
  induction 1 as [|a l Hs IH Ha]; intros Hone; [constructor|].
  constructor.
  - apply IH; intros k; specialize (Hone k); cbn [filter] in Hone.
    destruct (has_value k (key a)); cbn [List.length] in Hone; lia.
  - rewrite Forall_forall in *; intros b Hb.
    specialize (Ha b Hb); unfold descending, num_le in Ha; unfold num_lt.
    destruct (key b) as [x|] eqn:Kb, (key a) as [y|] eqn:Ka; try tauto.
    apply Qle_lt_or_eq in Ha; destruct Ha as [Hlt|Heq]; [exact Hlt|].
    exfalso; specialize (Hone y); cbn [filter] in Hone.
    assert (Hya : has_value y (key a) = true)
      by (rewrite Ka; cbn [has_value]; apply Qeq_bool_iff; reflexivity).
    assert (Hyb : has_value y (key b) = true)
      by (rewrite Kb; cbn [has_value]; apply Qeq_bool_iff; exact Heq).
    rewrite Hya in Hone; cbn [List.length] in Hone.
    pose proof (filter_length_In y b l Hb Hyb); lia.
Qed.
End SortFacts.

Lemma ForallOrdPairs_map {A B : Type} (f : A -> B) (R : B -> B -> Prop) l :
  ForallOrdPairs (fun a b => R (f a) (f b)) l -> ForallOrdPairs R (map f l).
Proof.
  induction 1 as [|a l Ha Hl IH]; cbn [map]; constructor; [|exact IH].
  apply Forall_map; exact Ha.
Qed.

Lemma order_weights_sort data_objects :
  order_weights data_objects =
  list_sort snd true (map (fun d => (feeling d, average_weight d)) data_objects).
Proof.
  unfold order_weights.
  rewrite (fold_left_append (fun d => (feeling d, average_weight d))).
  reflexivity.
Qed.

(** C3: for records whose averages are numbers, [order_weights] prints the
    pairs of label and average of all the records, each once, in
    descending order of the average; when the averages are pairwise
    distinct the order is strictly descending; and the records of one
    average are printed in the order they have in the registry. *)
Theorem order_weights_ranking (data_objects : list Data)
    (Hdefined : Forall (fun d => is_nan (average_weight d) = false) data_objects) :
  let pairs := map (fun d => (feeling d, average_weight d)) data_objects in
  let ranked := order_weights data_objects in
  Permutation ranked pairs
  /\ StronglySorted (fun p q => num_le (snd q) (snd p)) ranked
  /\ (ForallOrdPairs
        (fun d d' => ~ num_eq (average_weight d) (average_weight d')) data_objects ->
      StronglySorted (fun p q => num_lt (snd q) (snd p)) ranked)
  /\ (forall k,
        filter (fun p => has_value k (snd p)) ranked =
        filter (fun p => has_value k (snd p)) pairs).
Proof.
  intros pairs ranked; unfold ranked; rewrite order_weights_sort; fold pairs.
  assert (Hdef : Forall (fun p : string * pynum => is_nan (snd p) = false) pairs)
    by (unfold pairs; apply Forall_map; exact Hdefined).
  assert (Hsorted : StronglySorted (fun p q : string * pynum => num_le (snd q) (snd p))
                      (list_sort snd true pairs))
    by (apply list_sort_reverse_sorted; exact Hdef).
  split; [apply list_sort_reverse_perm|].
  split; [exact Hsorted|].
  split; [|intros k; apply list_sort_reverse_stable].
  intros Hdistinct; apply sorted_distinct_strict; [exact Hsorted|].
  intros k; rewrite list_sort_reverse_stable.
  apply distinct_filter_length; unfold pairs.
  apply (ForallOrdPairs_map (fun d => (feeling d, average_weight d))
           (fun p q => ~ num_eq (snd p) (snd q))).
  exact Hdistinct.
Qed.

Lemma order_weights_ranking_witness :
  Forall (fun d => is_nan (average_weight d) = false)
    [mkData "Bored" "Never Often" [Some 0%Q; Some (2 # 3)] (Num (1 # 3));
     mkData "Tired" "Always" [Some 1%Q] (Num 1);
     mkData "Calm" "Sometimes" [Some (1 # 3)] (Num (2 # 6))]
  /\ order_weights
       [mkData "Bored" "Never Often" [Some 0%Q; Some (2 # 3)] (Num (1 # 3));
        mkData "Tired" "Always" [Some 1%Q] (Num 1);
        mkData "Calm" "Sometimes" [Some (1 # 3)] (Num (2 # 6))]
     = [("Tired", Num 1); ("Bored", Num (1 # 3)); ("Calm", Num (2 # 6))]
  /\ StronglySorted (fun p q => num_le (snd q) (snd p))
       (order_weights
          [mkData "Bored" "Never Often" [Some 0%Q; Some (2 # 3)] (Num (1 # 3));
           mkData "Tired" "Always" [Some 1%Q] (Num 1);
           mkData "Calm" "Sometimes" [Some (1 # 3)] (Num (2 # 6))]).
Proof.
  assert (H : Forall (fun d => is_nan (average_weight d) = false)
                [mkData "Bored" "Never Often" [Some 0%Q; Some (2 # 3)] (Num (1 # 3));
                 mkData "Tired" "Always" [Some 1%Q] (Num 1);
                 mkData "Calm" "Sometimes" [Some (1 # 3)] (Num (2 # 6))])
    by (repeat constructor).
  split; [exact H|]. split; [reflexivity|].
  exact (proj1 (proj2 (order_weights_ranking _ H))).
Defined.

(** * Further properties *)

(** ** Matches of the label pattern *)

Lemma word_run_spec s w rest :
  word_run s = (w, rest) -> s = (w ++ rest)%string /\ all_chars is_word w = true.
Proof.
  revert w rest; induction s as [|c s IH]; cbn [word_run]; intros w rest H.
  - inversion H; split; reflexivity.
  - destruct (is_word c) eqn:Hc.
    + destruct (word_run s) as [w' r'] eqn:Hr.
      destruct (IH w' r' eq_refl) as [Hs Hw].
      inversion H; subst w rest; cbn [append all_chars].
      rewrite Hc, Hw; split; [f_equal; exact Hs|reflexivity].
    + inversion H; split; reflexivity.
Qed.

Lemma match_here_spec s w n :
  match_here s = Some (w, n) ->
  exists post,
    s = String lbracket (w ++ String rbracket post)
    /\ all_chars is_word w = true /\ w <> EmptyString
    /\ n = (String.length w + 2)%nat.
Proof.
  destruct s as [|c s]; cbn [match_here]; [discriminate|].
  destruct (Ascii.eqb c lbracket) eqn:Hc; [|discriminate].
  apply Ascii.eqb_eq in Hc; subst c.
  destruct (word_run s) as [w' rest] eqn:Hr.
  destruct (word_run_spec _ _ _ Hr) as [Hs Hw].
  destruct w' as [|a w']; [discriminate|].
  destruct rest as [|d post]; [discriminate|].
  destruct (Ascii.eqb d rbracket) eqn:Hd; [|discriminate].
  apply Ascii.eqb_eq in Hd; subst d.
  intros H; inversion H; subst w n.
  exists post; repeat split; [f_equal; exact Hs|exact Hw|discriminate].
Qed.

Lemma findall_from_occurs s :
  forall skip w,
    In w (findall_from skip s) ->
    all_chars is_word w = true /\ w <> EmptyString
    /\ exists pre post, s = (pre ++ String lbracket (w ++ String rbracket post))%string.
Proof.
  induction s as [|c s IH]; intros skip w; cbn [findall_from]; [intros []|].
  assert (Hrec : forall k, In w (findall_from k s) ->
            all_chars is_word w = true /\ w <> EmptyString
            /\ exists pre post,
                 String c s = (pre ++ String lbracket (w ++ String rbracket post))%string).
  { intros k Hin; destruct (IH k w Hin) as (Hw & Hne & pre & post & Hs).
    repeat split; try assumption.
    exists (String c pre), post; cbn [append]; f_equal; exact Hs. }
  destruct skip as [|k]; [|apply Hrec].
  destruct (match_here (String c s)) as [[w' n]|] eqn:Hm; [|apply Hrec].
  intros [Heq|Hin]; [|eapply Hrec; exact Hin].
  subst w'; destruct (match_here_spec _ _ _ Hm) as (post & Hs & Hw & Hne & _).
  repeat split; try assumption.
  exists EmptyString, post; exact Hs.
Qed.

Lemma count_char_cons_le c d s : (count_char c s <= count_char c (String d s))%nat.
Proof. cbn [count_char]; destruct (Ascii.eqb d c); lia. Qed.

Lemma findall_from_count s :
  forall skip, (List.length (findall_from skip s) <= count_char lbracket s)%nat.
Proof.
  induction s as [|c s IH]; intros skip; cbn [findall_from]; [cbn; lia|].
  pose proof (count_char_cons_le lbracket c s) as Hle.
  destruct skip as [|k]; [|specialize (IH k); lia].
  destruct (match_here (String c s)) as [[w n]|] eqn:Hm;
    [|specialize (IH O); lia].
  destruct (match_here_spec _ _ _ Hm) as (post & Hs & _).
  assert (Hc : c = lbracket) by congruence.
  subst c; cbn [List.length count_char].
  rewrite Ascii.eqb_refl; specialize (IH (n - 1)%nat); lia.
Qed.

Lemma extract_feeling_ok_iff (data_ : pyobj) (subgroup : Z) (w : string) :
  extract_feeling data_ subgroup = Ok w
  <-> exists s, data_ = PyStr s /\ 0 <= subgroup
                /\ nth_error (findall s) (Z.to_nat subgroup) = Some w.
Proof.
  split.
  - destruct data_ as [s| |]; cbn [extract_feeling]; try discriminate.
    destruct (subgroup <? 0) eqn:Hneg; [discriminate|].
    apply Z.ltb_ge in Hneg.
    destruct (subgroup >=? Z.of_nat (List.length (findall s))); [discriminate|].
    destruct (nth_error (findall s) (Z.to_nat subgroup)) as [v|] eqn:Hn;
      [|discriminate].
    intros H; inversion H; subst v.
    exists s; repeat split; assumption.
  - intros (s & -> & Hsub & Hn).
    assert (Hlt : (Z.to_nat subgroup < List.length (findall s))%nat)
      by (apply nth_error_Some; rewrite Hn; discriminate).
    cbn [extract_feeling].
    destruct (subgroup <? 0) eqn:Hneg; [apply Z.ltb_lt in Hneg; lia|].
    destruct (subgroup >=? Z.of_nat (List.length (findall s))) eqn:Hge;
      [rewrite Z.geb_le in Hge; lia|].
    rewrite Hn; reflexivity.
Qed.

(** X1: [extract_feeling] returns a word exactly when its argument is a
    text, the selector is not negative and the word is the match at that
    position; in every other case it raises.  In particular a negative
    selector never selects a match from the end. *)
Theorem extract_feeling_returns (data_ : pyobj) (subgroup : Z) (w : string) :
  extract_feeling data_ subgroup = Ok w
  <-> exists s, data_ = PyStr s /\ 0 <= subgroup
                /\ nth_error (findall s) (Z.to_nat subgroup) = Some w.
Proof.
  split.
  - destruct data_ as [s| |]; cbn [extract_feeling]; try discriminate.
    destruct (subgroup <? 0) eqn:Hneg; [discriminate|].
    apply Z.ltb_ge in Hneg.
    destruct (subgroup >=? Z.of_nat (List.length (findall s))); [discriminate|].
    destruct (nth_error (findall s) (Z.to_nat subgroup)) as [v|] eqn:Hn;
      [|discriminate].
    intros H; inversion H; subst v.
    exists s; repeat split; assumption.
  - intros (s & -> & Hsub & Hn).
    assert (Hlt : (Z.to_nat subgroup < List.length (findall s))%nat)
      by (apply nth_error_Some; rewrite Hn; discriminate).
    cbn [extract_feeling].
    destruct (subgroup <? 0) eqn:Hneg; [apply Z.ltb_lt in Hneg; lia|].
    destruct (subgroup >=? Z.of_nat (List.length (findall s))) eqn:Hge;
      [rewrite Z.geb_le in Hge; lia|].
    rewrite Hn; reflexivity.
Qed.

(** X2: a word returned by [extract_feeling] is a non-empty run of word
    characters that stands between an opening and a closing bracket in
    the text, and a text has at most as many matches as opening
    brackets. *)
Theorem extract_feeling_word_in_brackets (s : string) (subgroup : Z) (w : string)
    (Hret : extract_feeling (PyStr s) subgroup = Ok w) :
  w <> EmptyString
  /\ all_chars is_word w = true
  /\ (exists pre post, s = (pre ++ String lbracket (w ++ String rbracket post))%string)
  /\ subgroup < Z.of_nat (count_char lbracket s).
Proof.
  apply extract_feeling_ok_iff in Hret.
  destruct Hret as (s' & Heq & Hsub & Hn); inversion Heq; subst s'.
  pose proof (nth_error_In _ _ Hn) as Hin.
  destruct (findall_from_occurs s 0 w Hin) as (Hw & Hne & Hocc).
  repeat split; try assumption.
  assert (Hlt : (Z.to_nat subgroup < List.length (findall s))%nat)
    by (apply nth_error_Some; rewrite Hn; discriminate).
  pose proof (findall_from_count s 0); unfold findall in Hlt; lia.
Qed.

Lemma extract_feeling_word_in_brackets_witness :
  extract_feeling (PyStr "[6] [90]") 1 = Ok "90"
  /\ exists pre post, "[6] [90]" = (pre ++ String lbracket ("90" ++ String rbracket post))%string.
Proof.
  split; [reflexivity|].
  exact (proj1 (proj2 (proj2 (extract_feeling_word_in_brackets
           "[6] [90]" 1 "90" eq_refl)))).
Defined.

(** X3: in a text that starts, after characters other than the opening
    bracket, with a bracketed word, that word is the match 0, and the
    match [n + 1] is the match [n] of the text after the closing
    bracket. *)
Theorem extract_feeling_first_bracket (a w rest : string)
    (Ha : has_char (Ascii.eqb lbracket) a = false)
    (Hne : w <> EmptyString) (Hw : all_chars is_word w = true) :
  extract_feeling (PyStr (a ++ String lbracket (w ++ String rbracket rest))) 0 = Ok w
  /\ forall n v,
       0 <= n ->
       (extract_feeling (PyStr rest) n = Ok v
        <-> extract_feeling (PyStr (a ++ String lbracket (w ++ String rbracket rest)))
              (n + 1) = Ok v).
Proof.
  pose proof (findall_bracketed a w rest Ha Hne Hw) as Hf.
  split.
  - apply extract_feeling_ok_iff; eexists; split; [reflexivity|].
    split; [lia|]; rewrite Hf; reflexivity.
  - intros n v Hn; rewrite !extract_feeling_ok_iff; split.
    + intros (s & Hs & _ & Hnth); inversion Hs; subst s.
      eexists; split; [reflexivity|]; split; [lia|].
      rewrite Hf; replace (Z.to_nat (n + 1)) with (S (Z.to_nat n)) by lia.
      exact Hnth.
    + intros (s & Hs & _ & Hnth); inversion Hs; subst s.
      eexists; split; [reflexivity|]; split; [lia|].
      rewrite Hf in Hnth.
      replace (Z.to_nat (n + 1)) with (S (Z.to_nat n)) in Hnth by lia.
      exact Hnth.
Qed.

Lemma extract_feeling_first_bracket_witness :
  has_char (Ascii.eqb lbracket) "Feel: " = false
  /\ "Bored" <> EmptyString /\ all_chars is_word "Bored" = true
  /\ extract_feeling (PyStr ("Feel: " ++ String lbracket ("Bored" ++ String rbracket " [Sad]"))) 0
     = Ok "Bored".
Proof.
  assert (Hne : "Bored" <> EmptyString) by discriminate.
  split; [reflexivity|]. split; [exact Hne|]. split; [reflexivity|].
  exact (proj1 (extract_feeling_first_bracket "Feel: " "Bored" " [Sad]"
                  eq_refl Hne eq_refl)).
Defined.

(** ** The text after the first closing bracket *)

Lemma append_assoc_str (a b c : string) : ((a ++ b) ++ c = a ++ (b ++ c))%string.
Proof. induction a as [|x a IH]; cbn [append]; [reflexivity|f_equal; exact IH]. Qed.

Lemma length_append_str (a b : string) :
  String.length (a ++ b) = (String.length a + String.length b)%nat.
Proof.
  induction a as [|x a IH]; cbn [append String.length]; [reflexivity|].
  rewrite IH; reflexivity.
Qed.

Lemma has_char_app p a b :
  has_char p (a ++ b) = (has_char p a || has_char p b)%bool.
Proof.
  induction a as [|c a IH]; cbn [append has_char]; [reflexivity|].
  rewrite IH, orb_assoc; reflexivity.
Qed.

Lemma replace_char_app old new a b :
  replace_char old new (a ++ b) =
  (replace_char old new a ++ replace_char old new b)%string.
Proof.
  unfold replace_char; induction a as [|c a IH]; cbn [append str_map];
    [reflexivity|f_equal; exact IH].
Qed.

Lemma replace_char_absent old new s :
  has_char (Ascii.eqb old) s = false -> replace_char old new s = s.
Proof.
  unfold replace_char; induction s as [|c s IH]; cbn [has_char str_map];
    intros H; [reflexivity|].
  apply orb_false_iff in H; destruct H as [Hc Hs].
  rewrite Ascii.eqb_sym, Hc, (IH Hs); reflexivity.
Qed.

Lemma replace_char_removes old new s :
  old <> new -> has_char (Ascii.eqb old) (replace_char old new s) = false.
Proof.
  intros Hne; unfold replace_char; induction s as [|c s IH];
    cbn [str_map has_char]; [reflexivity|].
  rewrite IH, orb_false_r.
  destruct (Ascii.eqb c old) eqn:Hc.
  - apply Ascii.eqb_neq; exact Hne.
  - rewrite Ascii.eqb_sym; exact Hc.
Qed.

Lemma first_occurrence c s :
  has_char (Ascii.eqb c) s = true ->
  exists a b, s = (a ++ String c b)%string /\ has_char (Ascii.eqb c) a = false.
Proof.
  induction s as [|d s IH]; cbn [has_char]; [discriminate|].
  destruct (Ascii.eqb c d) eqn:Hd; cbn [orb].
  - intros _; apply Ascii.eqb_eq in Hd; subst d.
    exists EmptyString, s; split; reflexivity.
  - intros H; destruct (IH H) as (a & b & Hs & Ha).
    exists (String d a), b; split; [cbn [append]; f_equal; exact Hs|].
    cbn [has_char]; rewrite Hd, Ha; reflexivity.
Qed.

Lemma find_from_first c a b :
  has_char (Ascii.eqb c) a = false ->
  forall i, find_from (str c) (a ++ String c b) i = i + Z.of_nat (String.length a).
Proof.
  induction a as [|d a IH]; cbn [has_char append String.length]; intros H i.
  - cbn [find_from]; rewrite prefix_char, Ascii.eqb_refl; cbn; lia.
  - apply orb_false_iff in H; destruct H as [Hd Ha].
    cbn [find_from]; rewrite prefix_char, Ascii.eqb_sym, Hd.
    rewrite (IH Ha); lia.
Qed.

Lemma list_ascii_app a b :
  list_ascii_of_string (a ++ b) =
  (list_ascii_of_string a ++ list_ascii_of_string b)%list.
Proof.
  induction a as [|c a IH]; cbn [append list_ascii_of_string app];
    [reflexivity|f_equal; exact IH].
Qed.

Lemma list_ascii_length s :
  List.length (list_ascii_of_string s) = String.length s.
Proof.
  induction s as [|c s IH]; cbn [list_ascii_of_string List.length String.length];
    [reflexivity|f_equal; exact IH].
Qed.

Lemma str_slice_drop a c b :
  str_slice (a ++ String c b) (Some (Z.of_nat (String.length a) + 1)) None = b.
Proof.
  unfold str_slice, slice.
  rewrite list_ascii_app, length_app, list_ascii_length.
  cbn [list_ascii_of_string List.length].
  set (n := String.length a).
  assert (Hadj : adjust_index (Z.of_nat (n + S (List.length (list_ascii_of_string b))))
                   (Z.of_nat n + 1) = Z.of_nat (S n)).
  { unfold adjust_index; destruct (Z.of_nat n + 1 <? 0) eqn:H;
      [apply Z.ltb_lt in H; lia|lia]. }
  rewrite Hadj, Nat2Z.id.
  replace (skipn (S n) (list_ascii_of_string a ++ c :: list_ascii_of_string b)%list)
    with (list_ascii_of_string b).
  - rewrite firstn_all2 by lia; apply string_of_list_ascii_of_string.
  - replace (list_ascii_of_string a ++ c :: list_ascii_of_string b)%list
      with ((list_ascii_of_string a ++ [c]) ++ list_ascii_of_string b)%list
      by (rewrite <- app_assoc; reflexivity).
    rewrite skipn_app.
    replace (S n) with (List.length (list_ascii_of_string a ++ [c])%list)
      by (rewrite length_app, list_ascii_length; cbn [List.length]; unfold n; lia).
    rewrite skipn_all, Nat.sub_diag; reflexivity.
Qed.

Lemma strip_data_after s a b :
  replace_char newline space s = (a ++ String rbracket b)%string ->
  has_char (Ascii.eqb rbracket) a = false ->
  strip_data (PyStr s) = Ok (strip b).
Proof.
  intros Hs Ha; unfold strip_data, find; rewrite Hs.
  rewrite (find_from_first rbracket a b Ha), Z.add_0_l, str_slice_drop.
  reflexivity.
Qed.

(** The result of [strip_data] is the stripped end of the text with the
    newlines replaced. *)
Lemma strip_data_suffix s :
  exists a rest,
    replace_char newline space s = (a ++ rest)%string
    /\ strip_data (PyStr s) = Ok (strip rest).
Proof.
  destruct (has_char (Ascii.eqb rbracket) (replace_char newline space s)) eqn:Hb.
  - destruct (first_occurrence _ _ Hb) as (a & b & Hs & Ha).
    exists (a ++ str rbracket)%string, b; split.
    + rewrite Hs, append_assoc_str; reflexivity.
    + apply (strip_data_after s a b Hs Ha).
  - exists EmptyString, (replace_char newline space s); split; [reflexivity|].
    apply strip_data_whole.
    rewrite replace_char_has_char in Hb by reflexivity; exact Hb.
Qed.

Lemma strip_has_char p s : has_char p (strip s) = true -> has_char p s = true.
Proof.
  unfold strip; intros H.
  destruct (lstrip_decompose s) as (a & Ha & _).
  destruct (rstrip_decompose (lstrip s)) as (b & Hb & _).
  rewrite Ha, Hb, !has_char_app, H, orb_true_r; reflexivity.
Qed.

Lemma lstrip_fixed s :
  (forall c t, s = String c t -> is_space c = false) -> lstrip s = s.
Proof.
  destruct s as [|c t]; intros H; cbn [lstrip]; [reflexivity|].
  rewrite (H c t eq_refl); reflexivity.
Qed.

Lemma rstrip_idempotent s : rstrip (rstrip s) = rstrip s.
Proof.
  induction s as [|c s IH]; [reflexivity|]; cbn [rstrip].
  destruct (rstrip s) as [|e r] eqn:Hr.
  - destruct (is_space c) eqn:Hc; [reflexivity|].
    cbn [str rstrip]; rewrite Hc; reflexivity.
  - cbn [rstrip]; cbn [rstrip] in IH.
    change (match rstrip r with
            | EmptyString => if is_space e then EmptyString else str e
            | String a s0 => String e (String a s0)
            end) with (rstrip (String e r)) in *.
    rewrite IH; reflexivity.
Qed.

Lemma strip_idempotent s : strip (strip s) = strip s.
Proof.
  unfold strip at 1.
  rewrite (lstrip_fixed (strip s)) by (intros c t; apply strip_head).
  unfold strip; apply rstrip_idempotent.
Qed.

(** X4: in a text with a closing bracket, [strip_data] discards the text
    up to the first closing bracket and that bracket, and returns what
    follows with its newlines replaced by spaces and its ends stripped;
    brackets after the first stay in the result. *)
Theorem strip_data_after_bracket (a b : string)
    (Ha : has_char (Ascii.eqb rbracket) a = false) :
  strip_data (PyStr (a ++ String rbracket b)) =
  Ok (strip (replace_char newline space b)).
Proof.
  apply (strip_data_after _ (replace_char newline space a)).
  - rewrite replace_char_app; reflexivity.
  - rewrite replace_char_has_char by reflexivity; exact Ha.
Qed.

Lemma strip_data_after_bracket_witness :
  has_char (Ascii.eqb rbracket) "How? [Bored" = false
  /\ strip_data (PyStr ("How? [Bored" ++ String rbracket (" [Sad] " ++ str newline ++ "Never")))
     = Ok "[Sad]  Never".
Proof.
  split; [reflexivity|].
  exact (strip_data_after_bracket "How? [Bored" (" [Sad] " ++ str newline ++ "Never")
           eq_refl).
Defined.

(** X5: whatever the text, the result of [strip_data] holds no newline
    and neither starts nor ends with whitespace; applied to a result that
    holds no closing bracket, [strip_data] returns it unchanged. *)
Theorem strip_data_normal_form (s body : string)
    (Hret : strip_data (PyStr s) = Ok body) :
  has_char (Ascii.eqb newline) body = false
  /\ (forall c t, body = String c t -> is_space c = false)
  /\ (forall t c, body = (t ++ str c)%string -> is_space c = false)
  /\ (has_char (Ascii.eqb rbracket) body = false ->
      strip_data (PyStr body) = Ok body).
Proof.
  destruct (strip_data_suffix s) as (a & rest & Hs & Hr).
  rewrite Hr in Hret; inversion Hret as [Hbody]; clear Hret; subst body.
  assert (Hnl : has_char (Ascii.eqb newline) (strip rest) = false).
  { destruct (has_char (Ascii.eqb newline) (strip rest)) eqn:H; [|reflexivity].
    apply strip_has_char in H.
    pose proof (replace_char_removes newline space s) as Hrm.
    rewrite Hs, has_char_app, H, orb_true_r in Hrm.
    assert (Hne : newline <> space) by discriminate.
    discriminate (Hrm Hne). }
  split; [exact Hnl|].
  split; [intros c t; apply strip_head|].
  split; [intros t c; apply rstrip_last|].
  intros Hb; rewrite (strip_data_whole _ Hb).
  rewrite (replace_char_absent _ _ _ Hnl), strip_idempotent; reflexivity.
Qed.

Lemma strip_data_normal_form_witness :
  strip_data (PyStr ("x] Often" ++ str newline ++ "Never ")) = Ok "Often Never"
  /\ strip_data (PyStr "Often Never") = Ok "Often Never".
Proof.
  split; [reflexivity|].
  apply (strip_data_normal_form ("x] Often" ++ str newline ++ "Never ") "Often Never"
           eq_refl); reflexivity.
Defined.

(** ** The block cleaner on arbitrary input *)

Lemma all_str_blocks items :
  forallb isinstance_str items = true -> exists blocks, items = map PyStr blocks.
Proof.
  induction items as [|o items IH]; cbn [forallb]; intros H.
  - exists []; reflexivity.
  - apply andb_true_iff in H; destruct H as [Ho Hi].
    destruct (IH Hi) as [blocks Hb].
    destruct o as [s| |]; try discriminate.
    exists (s :: blocks); cbn [map]; f_equal; exact Hb.
Qed.

Lemma extract_feeling_default_error s e :
  extract_feeling (PyStr s) 0 = inl e -> e = IndexError no_match_message.
Proof.
  cbn [extract_feeling]; change (0 <? 0) with false; cbv iota.
  destruct (findall s) as [|w l]; cbn [List.length].
  - intros H; inversion H; reflexivity.
  - replace (0 >=? Z.of_nat (S (List.length l))) with false
      by (symmetry; rewrite Z.geb_leb; apply Z.leb_gt; lia).
    cbn [Z.to_nat nth_error]; discriminate.
Qed.

Lemma block_diagnostic_line block line :
  In line (block_diagnostic block) ->
  line = extract_diagnostic (IndexError no_match_message).
Proof.
  unfold block_diagnostic.
  destruct (extract_feeling (PyStr block) 0) as [e|] eqn:He; [|intros []].
  rewrite (extract_feeling_default_error _ _ He).
  intros [H|[]]; symmetry; exact H.
Qed.

Lemma block_pairs_or_diagnostic block :
  (List.length (block_pairs block) + List.length (block_diagnostic block) = 1)%nat.
Proof.
  unfold block_pairs, block_diagnostic.
  destruct (extract_feeling (PyStr block) 0); [reflexivity|].
  destruct (strip_data_str block) as [body Hb]; rewrite Hb; reflexivity.
Qed.

Lemma clean_data_returned blocks :
  exists r,
    clean_data (PyList (map PyStr blocks)) = (flat_map block_trace blocks, Ok r)
    /\ returned_pairs r = flat_map block_pairs blocks.
Proof.
  rewrite clean_data_str.
  destruct (flat_map block_pairs blocks); eexists; split; reflexivity.
Qed.

(** X6: [clean_data] raises TypeError on every argument that is not a
    list of texts, and then before it looks at any element: no block is
    cleaned and nothing is printed, also when the texts come before the
    other element. *)
Theorem clean_data_rejects_whole_input (raw_data : pyobj)
    (Hnot : forall blocks, raw_data <> PyList (map PyStr blocks)) :
  exists msg, clean_data raw_data = ([], Raise (TypeError msg)).
Proof.
  destruct raw_data as [s|items|r t]; cbn [clean_data];
    try (eexists; reflexivity).
  destruct (forallb isinstance_str items) eqn:Hall; [|eexists; reflexivity].
  destruct (all_str_blocks items Hall) as [blocks Hb].
  exfalso; apply (Hnot blocks); f_equal; exact Hb.
Qed.

Lemma clean_data_rejects_whole_input_witness :
  (forall blocks, PyList [PyStr "[Bored] Never"; PyOther "1.20205" "float"]
                  <> PyList (map PyStr blocks))
  /\ exists msg,
       clean_data (PyList [PyStr "[Bored] Never"; PyOther "1.20205" "float"])
       = ([], Raise (TypeError msg)).
Proof.
  assert (H : forall blocks, PyList [PyStr "[Bored] Never"; PyOther "1.20205" "float"]
                             <> PyList (map PyStr blocks))
    by (intros [|b [|b' l]]; discriminate).
  split; [exact H|exact (clean_data_rejects_whole_input _ H)].
Defined.

(** X7: whatever its argument, the only line [clean_data] prints is the
    diagnostic of a block without a bracketed word, with the counts 0 and
    0; the diagnostic of a failure of [strip_data] is never printed. *)
Theorem clean_data_prints_one_diagnostic (raw_data : pyobj) :
  Forall (fun line => line = extract_diagnostic (IndexError no_match_message))
         (stdout (fst (clean_data raw_data))).
Proof.
  destruct raw_data as [s|items|r t]; cbn [clean_data fst stdout flat_map];
    try constructor.
  destruct (forallb isinstance_str items) eqn:Hall; [|constructor].
  destruct (all_str_blocks items Hall) as [blocks ->].
  rewrite clean_loop_str; cbn [fst].
  rewrite stdout_trace; apply Forall_forall; intros line Hin.
  apply in_flat_map in Hin; destruct Hin as (b & _ & Hb).
  eapply block_diagnostic_line; exact Hb.
Qed.

(** X8: on a list of texts every block gives either one pair or one
    printed line: the pairs returned and the lines printed are together
    as many as the blocks. *)
Theorem clean_data_accounts_for_blocks (blocks : list string) :
  exists t r,
    clean_data (PyList (map PyStr blocks)) = (t, Ok r)
    /\ (List.length (returned_pairs r) + List.length (stdout t)
        = List.length blocks)%nat.
Proof.
  destruct (clean_data_returned blocks) as (r & Hc & Hr).
  exists (flat_map block_trace blocks), r; split; [exact Hc|].
  rewrite Hr, stdout_trace; clear Hc Hr.
  induction blocks as [|b blocks IH]; [reflexivity|].
  cbn [flat_map List.length]; rewrite !length_app.
  pose proof (block_pairs_or_diagnostic b); lia.
Qed.

(** X9: the blocks are cleaned one by one: on two lists of texts put
    together, [clean_data] returns the pairs of the first followed by the
    pairs of the second, and prints the lines of the first followed by
    the lines of the second. *)
Theorem clean_data_concatenation (blocks1 blocks2 : list string) :
  exists t1 r1 t2 r2 t r,
    clean_data (PyList (map PyStr blocks1)) = (t1, Ok r1)
    /\ clean_data (PyList (map PyStr blocks2)) = (t2, Ok r2)
    /\ clean_data (PyList (map PyStr (blocks1 ++ blocks2))) = (t, Ok r)
    /\ returned_pairs r = returned_pairs r1 ++ returned_pairs r2
    /\ stdout t = stdout t1 ++ stdout t2.
Proof.
  destruct (clean_data_returned blocks1) as (r1 & Hc1 & Hr1).
  destruct (clean_data_returned blocks2) as (r2 & Hc2 & Hr2).
  destruct (clean_data_returned (blocks1 ++ blocks2)) as (r & Hc & Hr).
  exists (flat_map block_trace blocks1), r1, (flat_map block_trace blocks2), r2,
    (flat_map block_trace (blocks1 ++ blocks2)), r.
  repeat (split; [assumption|]).
  split.
  - rewrite Hr, Hr1, Hr2; apply flat_map_app.
  - rewrite flat_map_app; apply stdout_app.
Qed.

Lemma block_pairs_normal block p :
  In p (block_pairs block) ->
  fst p <> EmptyString
  /\ all_chars is_word (fst p) = true
  /\ (exists pre post,
        block = (pre ++ String lbracket (fst p ++ String rbracket post))%string)
  /\ has_char (Ascii.eqb newline) (snd p) = false
  /\ (forall c t, snd p = String c t -> is_space c = false)
  /\ (forall t c, snd p = (t ++ str c)%string -> is_space c = false).
Proof.
  unfold block_pairs.
  destruct (extract_feeling (PyStr block) 0) as [e|label] eqn:He; [intros []|].
  destruct (strip_data (PyStr block)) as [e|body] eqn:Hb; [intros []|].
  intros [Hp|[]]; subst p; cbn [fst snd].
  apply extract_feeling_ok_iff in He.
  destruct He as (s & Heq & _ & Hn); inversion Heq; subst s.
  destruct (findall_from_occurs block 0 label (nth_error_In _ _ Hn))
    as (Hw & Hne & Hocc).
  destruct (strip_data_suffix block) as (a & rest & Hs & Hr).
  unfold Ok in Hr; rewrite Hr in Hb; inversion Hb; subst body.
  repeat split; try assumption.
  - destruct (has_char (Ascii.eqb newline) (strip rest)) eqn:H; [|reflexivity].
    apply strip_has_char in H.
    pose proof (replace_char_removes newline space block) as Hrm.
    rewrite Hs, has_char_app, H, orb_true_r in Hrm.
    assert (Hnl : newline <> space) by discriminate.
    discriminate (Hrm Hnl).
  - intros c t; apply strip_head.
  - intros t c; apply rstrip_last.
Qed.

(** X10: in every pair [clean_data] returns for a list of texts, the
    label is a non-empty run of word characters that stands in brackets
    in one of the blocks, and the body holds no newline and neither
    starts nor ends with whitespace. *)
Theorem clean_data_pairs_normal (blocks : list string) :
  exists t r,
    clean_data (PyList (map PyStr blocks)) = (t, Ok r)
    /\ Forall (fun p =>
                 fst p <> EmptyString
                 /\ all_chars is_word (fst p) = true
                 /\ (exists block pre post,
                       In block blocks
                       /\ block = (pre ++ String lbracket
                                     (fst p ++ String rbracket post))%string)
                 /\ has_char (Ascii.eqb newline) (snd p) = false
                 /\ (forall c t, snd p = String c t -> is_space c = false)
                 /\ (forall t c, snd p = (t ++ str c)%string -> is_space c = false))
              (returned_pairs r).
Proof.
  destruct (clean_data_returned blocks) as (r & Hc & Hr).
  exists (flat_map block_trace blocks), r; split; [exact Hc|].
  rewrite Hr; apply Forall_forall; intros p Hin.
  apply in_flat_map in Hin; destruct Hin as (b & Hb & Hp).
  destruct (block_pairs_normal b p Hp) as (H1 & H2 & (pre & post & H3) & H4 & H5 & H6).
  repeat split; try assumption.
  exists b, pre, post; split; assumption.
Qed.

Lemma word_no_bracket w :
  all_chars is_word w = true -> has_char (Ascii.eqb rbracket) w = false.
Proof.
  induction w as [|c w IH]; cbn [all_chars has_char]; [reflexivity|].
  intros H; apply andb_true_iff in H; destruct H as [Hc Hw].
  rewrite (IH Hw), orb_false_r.
  destruct (Ascii.eqb rbracket c) eqn:Hr; [|reflexivity].
  apply Ascii.eqb_eq in Hr; subst c; discriminate.
Qed.

(** X11: a block made of a lead without brackets, one bracketed word and
    the answers gives the pair of the word and of the answers, with the
    newlines of the answers replaced by spaces and their ends
    stripped; nothing is printed. *)
Theorem clean_data_one_block (lead w answers_ : string)
    (Hlead1 : has_char (Ascii.eqb lbracket) lead = false)
    (Hlead2 : has_char (Ascii.eqb rbracket) lead = false)
    (Hne : w <> EmptyString) (Hw : all_chars is_word w = true) :
  exists t,
    clean_data (PyList [PyStr (lead ++ String lbracket (w ++ String rbracket answers_))])
    = (t, Ok (Some [(w, strip (replace_char newline space answers_))]))
    /\ stdout t = [].
Proof.
  set (block := (lead ++ String lbracket (w ++ String rbracket answers_))%string).
  assert (He : extract_feeling (PyStr block) 0 = Ok w).
  { apply extract_feeling_ok_iff; exists block; split; [reflexivity|].
    split; [lia|]; unfold block.
    rewrite (findall_bracketed lead w answers_ Hlead1 Hne Hw); reflexivity. }
  assert (Hb : strip_data (PyStr block)
               = Ok (strip (replace_char newline space answers_))).
  { apply (strip_data_after block
             (replace_char newline space (lead ++ String lbracket w))).
    - unfold block.
      replace (lead ++ String lbracket (w ++ String rbracket answers_))%string
        with ((lead ++ String lbracket w) ++ String rbracket answers_)%string
        by (rewrite append_assoc_str; reflexivity).
      rewrite replace_char_app; reflexivity.
    - rewrite replace_char_has_char by reflexivity.
      rewrite has_char_app, Hlead2; cbn [has_char orb].
      rewrite (word_no_bracket w Hw); reflexivity. }
  change [PyStr block] with (map PyStr [block]).
  rewrite clean_data_str; cbn [flat_map]; rewrite !app_nil_r.
  unfold block_pairs, block_trace; unfold Ok in He, Hb; rewrite He, Hb.
  eexists; split; reflexivity.
Qed.

Lemma clean_data_one_block_witness :
  has_char (Ascii.eqb lbracket) "How do you feel? " = false
  /\ has_char (Ascii.eqb rbracket) "How do you feel? " = false
  /\ "Tired" <> EmptyString /\ all_chars is_word "Tired" = true
  /\ exists t,
       clean_data (PyList [PyStr ("How do you feel? " ++ String lbracket
                                    ("Tired" ++ String rbracket
                                       (str newline ++ "Often" ++ str newline)))])
       = (t, Ok (Some [("Tired", "Often")]))
       /\ stdout t = [].
Proof.
  assert (Hne : "Tired" <> EmptyString) by discriminate.
  split; [reflexivity|]. split; [reflexivity|]. split; [exact Hne|].
  split; [reflexivity|].
  exact (clean_data_one_block "How do you feel? " "Tired"
           (str newline ++ "Often" ++ str newline) eq_refl eq_refl Hne eq_refl).
Defined.

(** ** Bodies and their tokens *)

Lemma split_char_app c a b :
  split_from (str c) 0 (a ++ String c b) =
  (split_from (str c) 0 a ++ split_from (str c) 0 b)%list.
Proof.
  induction a as [|d a IH]; cbn [append].
  - rewrite split_char_cons, Ascii.eqb_refl; reflexivity.
  - rewrite !split_char_cons; destruct (Ascii.eqb d c); [rewrite IH; reflexivity|].
    rewrite IH.
    destruct (split_from (str c) 0 a) as [|h t] eqn:Hs;
      [exfalso; revert Hs; apply split_from_not_nil|reflexivity].
Qed.

Lemma split_char_one c t :
  count_char c t = O -> split_from (str c) 0 t = [t].
Proof.
  induction t as [|d t IH]; cbn [count_char]; [reflexivity|].
  rewrite split_char_cons; destruct (Ascii.eqb d c); [discriminate|].
  intros H; rewrite (IH H); reflexivity.
Qed.

Lemma split_char_of_join c toks :
  toks <> [] -> Forall (fun t => count_char c t = O) toks ->
  split_from (str c) 0 (join (str c) toks) = toks.
Proof.
  intros Hne Hall; induction Hall as [|t toks Ht Hall IH]; [congruence|].
  destruct toks as [|t2 rest].
  - apply split_char_one; exact Ht.
  - change (join (str c) (t :: t2 :: rest))
      with (t ++ String c (join (str c) (t2 :: rest)))%string.
    rewrite split_char_app, (split_char_one c t Ht), IH by discriminate.
    reflexivity.
Qed.

Lemma dict_get_answers tok :
  match dict_get weight_for_time_interval tok with
  | Some q => In tok answers /\ (0 <= q <= 1)%Q
  | None => ~ In tok answers
  end.
Proof.
  unfold weight_for_time_interval, answers; cbn [dict_get].
  destruct (String.eqb_spec "Never" tok) as [<-|H1].
  { split; [left; reflexivity|split; discriminate]. }
  destruct (String.eqb_spec "Sometimes" tok) as [<-|H2].
  { split; [right; left; reflexivity|split; discriminate]. }
  destruct (String.eqb_spec "Often" tok) as [<-|H3].
  { split; [do 2 right; left; reflexivity|split; discriminate]. }
  destruct (String.eqb_spec "Always" tok) as [<-|H4].
  { split; [do 3 right; left; reflexivity|split; discriminate]. }
  intros [H|[H|[H|[H|[]]]]]; congruence.
Qed.

Lemma lookup_all toks :
  (Forall (fun t => In t answers) toks
   /\ exists qs, map (dict_get weight_for_time_interval) toks = map Some qs
                 /\ Forall (fun q => 0 <= q <= 1)%Q qs)
  \/ (~ Forall (fun t => In t answers) toks
      /\ In None (map (dict_get weight_for_time_interval) toks)).
Proof.
  induction toks as [|t toks IH]; cbn [map].
  - left; split; [constructor|exists []; split; constructor].
  - pose proof (dict_get_answers t) as Ht.
    destruct (dict_get weight_for_time_interval t) as [q|].
    + destruct Ht as [Hin Hq].
      destruct IH as [(Hall & qs & Hm & Hqs)|(Hnot & Hnone)].
      * left; split; [constructor; assumption|].
        exists (q :: qs); cbn [map]; rewrite Hm; split; [reflexivity|].
        constructor; assumption.
      * right; split; [|right; exact Hnone].
        intros H; inversion H; contradiction.
    + right; split; [|left; reflexivity].
      intros H; inversion H; contradiction.
Qed.

Lemma Qsum_bounds qs :
  Forall (fun q => 0 <= q <= 1)%Q qs ->
  (0 <= Qsum qs <= inject_Z (Z.of_nat (List.length qs)))%Q.
Proof.
  induction 1 as [|q qs [Hq0 Hq1] Hall [IH0 IH1]]; cbn [Qsum fold_right List.length].
  - split; apply Qle_refl.
  - fold (Qsum qs); split.
    + replace 0%Q with (0 + 0)%Q by reflexivity; apply Qplus_le_compat; assumption.
    + rewrite Nat2Z.inj_succ, <- Z.add_1_l, inject_Z_plus.
      apply Qplus_le_compat; assumption.
Qed.

Lemma np_mean_unit q qs :
  Forall (fun q => 0 <= q <= 1)%Q (q :: qs) ->
  exists m, np_mean (map Some (q :: qs)) = Ok (Num m) /\ (0 <= m <= 1)%Q.
Proof.
  intros Hall; destruct (np_mean_numbers q qs) as (m & Hm & Heq).
  exists m; split; [exact Hm|].
  destruct (Qsum_bounds _ Hall) as [H0 H1]; rewrite <- Heq in H0, H1.
  set (n := inject_Z (Z.of_nat (List.length (q :: qs)))) in *.
  assert (Hn : (0 < n)%Q).
  { unfold n; cbn [List.length]; unfold Qlt; cbn [Qnum Qden inject_Z]; lia. }
  split.
  - apply (Qmult_le_r _ _ n Hn); rewrite Qmult_0_l; exact H0.
  - apply (Qmult_le_r _ _ n Hn); rewrite Qmult_1_l; exact H1.
Qed.

(** X12: the body made of tokens without spaces, joined by single
    spaces, is split back into those tokens: [find_weights] returns, in
    order, the table value of each token that is one of the four answers
    and [None] for each other token. *)
Theorem find_weights_of_tokens (tokens : list string)
    (Hne : tokens <> [])
    (Hspace : Forall (fun tok => count_char space tok = O) tokens) :
  split (join (str space) tokens) (str space) = Ok tokens
  /\ find_weights (PyStr (join (str space) tokens)) =
     Ok (map (dict_get weight_for_time_interval) tokens)
  /\ Forall2 (fun tok w =>
                match w with
                | Some q => In tok answers /\ (0 <= q <= 1)%Q
                | None => ~ In tok answers
                end)
             tokens (map (dict_get weight_for_time_interval) tokens).
Proof.
  split; [|split].
  - unfold split; cbn [str]; unfold Ok; f_equal.
    apply (split_char_of_join space); assumption.
  - rewrite find_weights_map, (split_char_of_join space) by assumption.
    reflexivity.
  - clear; induction tokens as [|t tokens IH]; cbn [map]; constructor;
      [apply dict_get_answers|exact IH].
Qed.

Lemma find_weights_of_tokens_witness :
  ["Always"; "never"; "Often"] <> []
  /\ Forall (fun tok => count_char space tok = O) ["Always"; "never"; "Often"]
  /\ find_weights (PyStr "Always never Often") = Ok [Some 1%Q; None; Some (2 # 3)].
Proof.
  assert (Hne : ["Always"; "never"; "Often"] <> []) by discriminate.
  assert (Hsp : Forall (fun tok => count_char space tok = O)
                  ["Always"; "never"; "Often"]) by (repeat constructor).
  split; [exact Hne|]. split; [exact Hsp|].
  exact (proj1 (proj2 (find_weights_of_tokens _ Hne Hsp))).
Defined.

(** X13: the weights of two bodies joined by one space are the weights
    of the first followed by the weights of the second. *)
Theorem find_weights_concatenation (body1 body2 : string) :
  exists ws1 ws2,
    find_weights (PyStr body1) = Ok ws1
    /\ find_weights (PyStr body2) = Ok ws2
    /\ find_weights (PyStr (body1 ++ String space body2)) = Ok (ws1 ++ ws2).
Proof.
  do 2 eexists; rewrite !find_weights_map.
  split; [reflexivity|]. split; [reflexivity|].
  rewrite (split_char_app space), map_app; reflexivity.
Qed.

(** X14: the list [find_weights] returns is never empty, and each of its
    entries is [None] or a number from 0 to 1. *)
Theorem find_weights_range (body : string) (ws : list weight)
    (Hret : find_weights (PyStr body) = Ok ws) :
  ws <> []
  /\ Forall (fun w => match w with
                      | Some q => (0 <= q <= 1)%Q
                      | None => True
                      end) ws.
Proof.
  rewrite find_weights_map in Hret.
  assert (Hws : ws = map (dict_get weight_for_time_interval)
                       (split_from (str space) 0 body))
    by (unfold Ok in Hret; congruence).
  subst ws; clear Hret.
  split.
  - intros H; apply map_eq_nil in H; revert H; apply split_from_not_nil.
  - induction (split_from (str space) 0 body) as [|tok toks IH]; cbn [map];
      constructor; [|exact IH].
    pose proof (dict_get_answers tok) as H.
    destruct (dict_get weight_for_time_interval tok); [apply H|exact I].
Qed.

Lemma find_weights_range_witness :
  find_weights (PyStr EmptyString) = Ok [None]
  /\ [@None Q] <> [].
Proof.
  split; [reflexivity|].
  exact (proj1 (find_weights_range EmptyString [None] eq_refl)).
Defined.

Lemma score_tokens (self : Data) (toks : list string) :
  toks <> [] ->
  (Forall (fun t => In t answers) toks ->
   exists self',
     update_weights self (map (dict_get weight_for_time_interval) toks) = (self', Ok tt)
     /\ feeling self' = feeling self /\ data self' = data self
     /\ weights self' = map (dict_get weight_for_time_interval) toks
     /\ np_mean (weights self') = Ok (average_weight self')
     /\ in_unit_interval (average_weight self'))
  /\ (~ Forall (fun t => In t answers) toks ->
      exists self' msg,
        update_weights self (map (dict_get weight_for_time_interval) toks)
        = (self', Raise (TypeError msg))).
Proof.
  intros Hne; destruct (lookup_all toks) as [(Hall & qs & Hm & Hqs)|(Hnot & Hnone)].
  - split; [intros _|intros H; contradiction].
    rewrite Hm; destruct qs as [|q qs];
      [destruct toks; [congruence|discriminate]|].
    destruct (np_mean_unit q qs Hqs) as (m & Hmean & Hunit).
    unfold update_weights, update_average_weight; cbn [weights feeling data].
    unfold Ok in Hmean; rewrite Hmean.
    eexists; split; [reflexivity|]; cbn [feeling data weights average_weight].
    repeat split; try exact Hmean; apply Hunit.
  - split; [intros H; contradiction|intros _].
    destruct (np_mean_none _ Hnone) as [msg Hmsg].
    unfold update_weights, update_average_weight; cbn [weights].
    unfold Raise in Hmsg; rewrite Hmsg; eexists; exists msg; reflexivity.
Qed.

(** X15: scoring a record with the weights of a body, as [main] does,
    succeeds exactly when every token of the body is one of the four
    answers; the average is then the mean of the weights, a number from 0
    to 1 and never nan.  With any other token, an empty one included, the
    call raises TypeError. *)
Theorem score_body (self : Data) (body : string) :
  exists tokens ws,
    split body (str space) = Ok tokens
    /\ find_weights (PyStr body) = Ok ws
    /\ (Forall (fun tok => In tok answers) tokens ->
        exists self',
          update_weights self ws = (self', Ok tt)
          /\ weights self' = ws
          /\ np_mean (weights self') = Ok (average_weight self')
          /\ in_unit_interval (average_weight self'))
    /\ (~ Forall (fun tok => In tok answers) tokens ->
        exists self' msg, update_weights self ws = (self', Raise (TypeError msg))).
Proof.
  exists (split_from (str space) 0 body),
    (map (dict_get weight_for_time_interval) (split_from (str space) 0 body)).
  split; [reflexivity|]. split; [apply find_weights_map|].
  destruct (score_tokens self (split_from (str space) 0 body)
              (split_from_not_nil _ _ _)) as [Hok Herr].
  split; [|exact Herr].
  intros Hall; destruct (Hok Hall) as (self' & H1 & _ & _ & H4 & H5 & H6).
  exists self'; repeat split; assumption.
Qed.

(** ** Splitting on a delimiter and reading the file *)

Lemma split_from_skip sep u rest :
  split_from sep (String.length u) (u ++ rest) = split_from sep 0 rest.
Proof.
  induction u as [|c u IH]; cbn [String.length append]; [reflexivity|].
  cbn [split_from]; exact IH.
Qed.

Lemma prefix_append sep s :
  prefix sep s = true -> exists rest, s = (sep ++ rest)%string.
Proof.
  revert s; induction sep as [|d sep IH]; intros s H.
  - exists s; reflexivity.
  - destruct s as [|c s]; cbn [prefix] in H; [discriminate|].
    destruct (ascii_dec d c) as [->|]; [|discriminate].
    destruct (IH s H) as [rest ->]; exists rest; reflexivity.
Qed.

Lemma join_cons_empty sep l :
  l <> [] -> join sep (EmptyString :: l) = (sep ++ join sep l)%string.
Proof. destruct l as [|h t]; [congruence|reflexivity]. Qed.

Lemma split_from_join sep :
  sep <> EmptyString ->
  forall n s, (String.length s <= n)%nat -> join sep (split_from sep 0 s) = s.
Proof.
  intros Hsep; induction n as [|n IH]; intros s Hlen.
  - destruct s; [reflexivity|cbn [String.length] in Hlen; lia].
  - destruct s as [|c s]; [reflexivity|].
    cbn [String.length] in Hlen; cbn [split_from].
    destruct (prefix sep (String c s)) eqn:Hp.
    + destruct (prefix_append _ _ Hp) as [rest Hrest].
      destruct sep as [|d sep']; [congruence|].
      cbn [append] in Hrest; inversion Hrest; subst c s.
      replace (String.length (String d sep') - 1)%nat with (String.length sep')
        by (cbn [String.length]; lia).
      rewrite split_from_skip.
      rewrite join_cons_empty by apply split_from_not_nil.
      rewrite IH; [reflexivity|].
      rewrite length_append_str in Hlen; lia.
    + rewrite join_push_char by apply split_from_not_nil.
      rewrite IH by lia; reflexivity.
Qed.

Lemma slice_whole {A : Type} (l : list A) :
  slice l (Some 0) (Some (Z.of_nat (List.length l))) = l.
Proof.
  unfold slice, adjust_index; cbn [Z.ltb Z.compare].
  destruct (Z.of_nat (List.length l) <? 0) eqn:H; [apply Z.ltb_lt in H; lia|].
  rewrite Z.min_id, (Z.min_l 0) by lia.
  rewrite Z.sub_0_r, Nat2Z.id; cbn [Z.to_nat skipn]; apply firstn_all.
Qed.

(** X16: with the default indices [get_data_from_file] returns all the
    blocks of an existing file, at least one, and the blocks joined by
    the delimiter give back the contents of the file: splitting loses
    nothing, whatever the non-empty delimiter. *)
Theorem get_data_from_file_lossless (files : string -> option string)
    (file contents delimiter : string)
    (Hfile : files file = Some contents) (Hdelimiter : delimiter <> EmptyString) :
  exists blocks,
    get_data_from_file files file delimiter 0 None = Ok blocks
    /\ blocks <> []
    /\ join delimiter blocks = contents.
Proof.
  exists (split_from delimiter 0 contents).
  split; [|split].
  - unfold get_data_from_file; rewrite Hfile.
    rewrite (split_nonempty_separator _ _ Hdelimiter); cbn [bind Ok].
    rewrite slice_whole; reflexivity.
  - apply split_from_not_nil.
  - apply (split_from_join delimiter Hdelimiter (String.length contents)); lia.
Qed.

Lemma get_data_from_file_lossless_witness :
  one_file "survey.dat" "a---b----c" "survey.dat" = Some "a---b----c"
  /\ "---" <> EmptyString
  /\ get_data_from_file (one_file "survey.dat" "a---b----c") "survey.dat" "---" 0 None
     = Ok ["a"; "b"; "-c"]
  /\ exists blocks,
       get_data_from_file (one_file "survey.dat" "a---b----c") "survey.dat" "---" 0 None
       = Ok blocks
       /\ blocks <> [] /\ join "---" blocks = "a---b----c".
Proof.
  assert (Hf : one_file "survey.dat" "a---b----c" "survey.dat" = Some "a---b----c")
    by reflexivity.
  assert (Hd : "---" <> EmptyString) by discriminate.
  split; [exact Hf|]. split; [exact Hd|]. split; [reflexivity|].
  exact (get_data_from_file_lossless _ _ _ _ Hf Hd).
Defined.

(** For a file that does not exist [get_data_from_file] raises
    FileNotFoundError with the name of the file, whatever the delimiter
    and the indices: the file is looked up before the delimiter is used,
    so the empty delimiter raises no ValueError here. *)
Lemma get_data_from_file_missing (files : string -> option string)
    (file delimiter : string) (lower_index : Z) (upper_index : option Z)
    (Hfile : files file = None) :
  get_data_from_file files file delimiter lower_index upper_index
  = Raise (FileNotFoundError (file ++ " could not be found.")).
Proof. unfold get_data_from_file; rewrite Hfile; reflexivity. Qed.

Lemma get_data_from_file_missing_witness :
  one_file "survey.dat" "a---b" "not-real-file.dat" = None
  /\ get_data_from_file (one_file "survey.dat" "a---b") "not-real-file.dat"
       EmptyString 0 None
     = Raise (FileNotFoundError "not-real-file.dat could not be found.").
Proof.
  split; [reflexivity|].
  exact (get_data_from_file_missing _ "not-real-file.dat" EmptyString 0 None eq_refl).
Defined.

(** ** Records and the registry *)

(** X17: [update_weights] replaces the weights: after two calls the
    record holds the weights of the second, the second call returns or
    raises as it would alone, and when it returns the record is as after
    the second call alone, whatever the first call did. *)
Theorem update_weights_overwrites (self : Data) (ws1 ws2 : list weight) :
  weights (fst (update_weights (fst (update_weights self ws1)) ws2)) = ws2
  /\ snd (update_weights (fst (update_weights self ws1)) ws2)
     = snd (update_weights self ws2)
  /\ (snd (update_weights self ws2) = Ok tt ->
      update_weights (fst (update_weights self ws1)) ws2 = update_weights self ws2).
Proof.
  unfold update_weights, update_average_weight; cbn [weights].
  destruct (np_mean ws1) as [e1|m1]; cbn [fst feeling data weights average_weight];
    destruct (np_mean ws2) as [e2|m2]; cbn [fst snd weights];
    repeat split; try reflexivity; discriminate.
Qed.

(** X18: [populate_dataset] either appends one record, when both
    arguments are texts, or raises TypeError and leaves the registry as
    it was, when one of them is not. *)
Theorem populate_dataset_all_or_nothing (feeling_ feeling_data : pyobj)
    (registry : list Data) :
  (exists f d,
      feeling_ = PyStr f /\ feeling_data = PyStr d
      /\ populate_dataset feeling_ feeling_data registry
         = (registry ++ [Data_init f d], Ok tt))
  \/ ((isinstance_str feeling_ = false \/ isinstance_str feeling_data = false)
      /\ exists msg,
           populate_dataset feeling_ feeling_data registry
           = (registry, Raise (TypeError msg))).
Proof.
  destruct feeling_ as [f| |]; destruct feeling_data as [d| |];
    cbn [populate_dataset isinstance_str];
    try (right; split; [auto|eexists; reflexivity]).
  left; exists f, d; repeat split.
Qed.

(** ** Ranking a registry that is in order *)

Lemma insert_smallest {A : Type} (key : A -> pynum) x l :
  Forall (fun y => num_le (key x) (key y)) l -> insert key x l = x :: l.
Proof.
  intros H; destruct l as [|y l]; [reflexivity|]; cbn [insert].
  inversion H as [|? ? Hy _]; subst.
  destruct (py_lt (key y) (key x)) eqn:Hlt; [|reflexivity].
  apply py_lt_true in Hlt; exfalso.
  unfold num_le in Hy; unfold num_lt in Hlt.
  destruct (key x), (key y); try tauto.
  revert Hlt; apply Qle_not_lt; exact Hy.
Qed.

Lemma stable_sort_sorted_input {A : Type} (key : A -> pynum) l :
  StronglySorted (fun a b => num_le (key a) (key b)) l -> stable_sort key l = l.
Proof.
  induction 1 as [|x l Hs IH Hx]; cbn [stable_sort]; [reflexivity|].
  rewrite IH; apply insert_smallest; exact Hx.
Qed.

(** X19: when the records of the registry already stand in descending
    order of their averages, [order_weights] prints them in the order of
    the registry. *)
Theorem order_weights_keeps_ranked (data_objects : list Data)
    (Hranked : StronglySorted
                 (fun d d' => num_le (average_weight d') (average_weight d))
                 data_objects) :
  order_weights data_objects =
  map (fun d => (feeling d, average_weight d)) data_objects.
Proof.
  rewrite order_weights_sort; unfold list_sort.
  set (pairs := map (fun d => (feeling d, average_weight d)) data_objects).
  assert (Hp : StronglySorted (fun p q : string * pynum => num_le (snd q) (snd p)) pairs).
  { unfold pairs; clear pairs.
    induction Hranked as [|d l Hs IH Hd]; cbn [map]; constructor; [exact IH|].
    apply Forall_map; exact Hd. }
  rewrite stable_sort_sorted_input; [apply rev_involutive|].
  apply (StronglySorted_rev _ (fun p q : string * pynum => num_le (snd q) (snd p))).
  exact Hp.
Qed.

Lemma order_weights_keeps_ranked_witness :
  StronglySorted (fun d d' => num_le (average_weight d') (average_weight d))
    [mkData "Tired" "Always" [Some 1%Q] (Num 1);
     mkData "Bored" "Sometimes" [Some (1 # 3)] (Num (1 # 3))]
  /\ order_weights
       [mkData "Tired" "Always" [Some 1%Q] (Num 1);
        mkData "Bored" "Sometimes" [Some (1 # 3)] (Num (1 # 3))]
     = [("Tired", Num 1); ("Bored", Num (1 # 3))].
Proof.
  assert (H : StronglySorted (fun d d' => num_le (average_weight d') (average_weight d))
                [mkData "Tired" "Always" [Some 1%Q] (Num 1);
                 mkData "Bored" "Sometimes" [Some (1 # 3)] (Num (1 # 3))]).
  { repeat constructor; cbn; discriminate. }
  split; [exact H|exact (order_weights_keeps_ranked _ H)].
Defined.

(** ** The whole run *)

Lemma slice_5_15 {A : Type} (l : list A) :
  slice l (Some 5) (Some 15) = firstn 10 (skipn 5 l).
Proof.
  unfold slice, adjust_index; cbn [Z.ltb Z.compare].
  set (len := List.length l).
  destruct (Nat.le_gt_cases len 5) as [H5|H5].
  - rewrite (Z.min_r 5), (Z.min_r 15) by lia.
    rewrite Z.sub_diag, Nat2Z.id; cbn [Z.to_nat firstn].
    rewrite (skipn_all2 l) by (fold len; lia); reflexivity.
  - rewrite (Z.min_l 5) by lia; change (Z.to_nat 5) with 5%nat.
    destruct (Nat.le_gt_cases len 15) as [H15|H15].
    + rewrite (Z.min_r 15) by lia.
      rewrite !firstn_all2; [reflexivity| |]; rewrite length_skipn; fold len; lia.
    + rewrite (Z.min_l 15) by lia; reflexivity.
Qed.

Lemma populate_loop_str pairs :
  forall registry,
    populate_loop pairs registry =
    (registry ++ map (fun p => Data_init (fst p) (snd p)) pairs, Ok tt).
Proof.
  induction pairs as [|p pairs IH]; intros registry; cbn [populate_loop map].
  - rewrite app_nil_r; reflexivity.
  - cbn [populate_dataset]; rewrite IH, <- app_assoc; reflexivity.
Qed.

Lemma score_record (d : Data) :
  (scorable d ->
   exists ws d', find_weights (PyStr (data d)) = Ok ws
                 /\ update_weights d ws = (d', Ok tt) /\ scored d d')
  /\ (~ scorable d ->
      exists ws d' msg, find_weights (PyStr (data d)) = Ok ws
                        /\ update_weights d ws = (d', Raise (TypeError msg))).
Proof.
  destruct (score_tokens d (split_from (str space) 0 (data d))
              (split_from_not_nil _ _ _)) as [Hok Herr].
  split.
  - intros Hs; destruct (Hok Hs) as (d' & H1 & H2 & H3 & H4 & H5 & H6).
    eexists; exists d'; split; [apply find_weights_map|].
    split; [exact H1|].
    unfold scored; rewrite find_weights_map, <- H4.
    split; [exact H2|]. split; [exact H3|]. split; [reflexivity|].
    split; [exact H5|exact H6].
  - intros Hs; destruct (Herr Hs) as (d' & msg & H1).
    eexists; exists d', msg; split; [apply find_weights_map|exact H1].
Qed.

Lemma scorable_dec (d : Data) : scorable d \/ ~ scorable d.
Proof.
  unfold scorable.
  destruct (lookup_all (split_from (str space) 0 (data d))) as [[H _]|[H _]];
    [left|right]; exact H.
Qed.

Lemma update_loop_scores registry :
  Forall scorable registry ->
  exists registry', update_loop registry = (registry', Ok tt)
                    /\ Forall2 scored registry registry'.
Proof.
  induction 1 as [|d registry Hd Hall (registry' & Hloop & Hsc)].
  - exists []; split; [reflexivity|constructor].
  - destruct (proj1 (score_record d) Hd) as (ws & d' & Hf & Hu & Hs).
    exists (d' :: registry'); cbn [update_loop].
    unfold Ok in Hf; rewrite Hf, Hu, Hloop.
    split; [reflexivity|constructor; assumption].
Qed.

Lemma update_loop_raises registry :
  ~ Forall scorable registry ->
  exists registry' msg, update_loop registry = (registry', Raise (TypeError msg)).
Proof.
  induction registry as [|d registry IH]; intros Hnot.
  - exfalso; apply Hnot; constructor.
  - cbn [update_loop]; destruct (scorable_dec d) as [Hd|Hd].
    + destruct (proj1 (score_record d) Hd) as (ws & d' & Hf & Hu & _).
      unfold Ok in Hf; rewrite Hf, Hu.
      destruct IH as (registry' & msg & Hloop).
      { intros Hall; apply Hnot; constructor; assumption. }
      rewrite Hloop; exists (d' :: registry'), msg; reflexivity.
    + destruct (proj2 (score_record d) Hd) as (ws & d' & msg & Hf & Hu).
      unfold Ok in Hf; unfold Raise in Hu; rewrite Hf, Hu.
      exists (d' :: registry), msg; reflexivity.
Qed.

Lemma main_run files contents registry :
  files "EmotionalClimateData.dat" = Some contents ->
  main files registry =
  match flat_map block_pairs (main_blocks contents) with
  | [] =>
      (registry, flat_map block_diagnostic (main_blocks contents),
       Raise (TypeError "'NoneType' object is not iterable"))
  | p :: ps =>
      match update_loop
              (registry ++ map (fun p => Data_init (fst p) (snd p)) (p :: ps)) with
      | (registry', inl error) =>
          (registry', flat_map block_diagnostic (main_blocks contents), Raise error)
      | (registry', inr _) =>
          (registry', flat_map block_diagnostic (main_blocks contents),
           Ok (order_weights registry'))
      end
  end.
Proof.
  intros Hf; unfold main, get_data_from_file; rewrite Hf.
  unfold DELIMITER at 1, split; cbn [bind Ok].
  rewrite slice_5_15; fold DELIMITER; fold (main_blocks contents).
  rewrite clean_data_str, stdout_trace.
  destruct (flat_map block_pairs (main_blocks contents)) as [|p ps];
    [reflexivity|].
  unfold Ok; rewrite populate_loop_str; reflexivity.
Qed.

Lemma diagnostics_length blocks :
  (List.length (flat_map block_pairs blocks)
   + List.length (flat_map block_diagnostic blocks) = List.length blocks)%nat.
Proof.
  induction blocks as [|b blocks IH]; [reflexivity|].
  cbn [flat_map List.length]; rewrite !length_app.
  pose proof (block_pairs_or_diagnostic b); lia.
Qed.

Lemma no_survivor_pairs blocks :
  Forall (fun block => survives block = false) blocks ->
  flat_map block_pairs blocks = [].
Proof.
  induction 1 as [|b blocks Hb _ IH]; [reflexivity|].
  cbn [flat_map]; rewrite (block_pairs_skipped b Hb); exact IH.
Qed.

(** X20: when the data file does not exist, [main] raises
    FileNotFoundError, prints nothing and leaves the registry as it
    was. *)
Theorem main_missing_file (files : string -> option string) (registry : list Data)
    (Hfile : files "EmotionalClimateData.dat" = None) :
  main files registry =
  (registry, [],
   Raise (FileNotFoundError "EmotionalClimateData.dat could not be found.")).
Proof. unfold main, get_data_from_file; rewrite Hfile; reflexivity. Qed.

Lemma main_missing_file_witness :
  one_file "survey.dat" "a---b" "EmotionalClimateData.dat" = None
  /\ main (one_file "survey.dat" "a---b") []
     = ([], [], Raise (FileNotFoundError "EmotionalClimateData.dat could not be found.")).
Proof.
  split; [reflexivity|].
  exact (main_missing_file (one_file "survey.dat" "a---b") [] eq_refl).
Defined.

(** X21: when none of the sixth to fifteenth blocks of the file holds a
    bracketed word, in particular when the file has at most five blocks,
    [clean_data] returns [None] and [main] raises TypeError at the loop
    over it, after one diagnostic for each of those blocks; the registry
    is left as it was and no ranking is printed. *)
Theorem main_no_survivor (files : string -> option string) (contents : string)
    (registry : list Data)
    (Hfile : files "EmotionalClimateData.dat" = Some contents)
    (Hnone : Forall (fun block => survives block = false) (main_blocks contents)) :
  exists lines,
    main files registry =
    (registry, lines, Raise (TypeError "'NoneType' object is not iterable"))
    /\ List.length lines = List.length (main_blocks contents)
    /\ ((List.length (split_from DELIMITER 0 contents) <= 5)%nat -> lines = []).
Proof.
  exists (flat_map block_diagnostic (main_blocks contents)).
  rewrite (main_run _ _ _ Hfile), (no_survivor_pairs _ Hnone).
  split; [reflexivity|]. split.
  - pose proof (diagnostics_length (main_blocks contents)) as Hl.
    rewrite (no_survivor_pairs _ Hnone) in Hl; exact Hl.
  - intros Hle; unfold main_blocks; rewrite skipn_all2 by exact Hle; reflexivity.
Qed.

Lemma main_no_survivor_witness :
  one_file "EmotionalClimateData.dat" "a---b---c---d---e---Timestamp---3/12/2017"
    "EmotionalClimateData.dat"
  = Some "a---b---c---d---e---Timestamp---3/12/2017"
  /\ Forall (fun block => survives block = false)
       (main_blocks "a---b---c---d---e---Timestamp---3/12/2017")
  /\ exists lines,
       main (one_file "EmotionalClimateData.dat"
               "a---b---c---d---e---Timestamp---3/12/2017") []
       = ([], lines, Raise (TypeError "'NoneType' object is not iterable"))
       /\ List.length lines = 2%nat.
Proof.
  assert (Hf : one_file "EmotionalClimateData.dat"
                 "a---b---c---d---e---Timestamp---3/12/2017"
                 "EmotionalClimateData.dat"
               = Some "a---b---c---d---e---Timestamp---3/12/2017")
    by reflexivity.
  assert (Hn : Forall (fun block => survives block = false)
                 (main_blocks "a---b---c---d---e---Timestamp---3/12/2017"))
    by (vm_compute; repeat constructor).
  split; [exact Hf|]. split; [exact Hn|].
  destruct (main_no_survivor _ _ [] Hf Hn) as (lines & Hm & Hl & _).
  exists lines; split; [exact Hm|exact Hl].
Defined.

Lemma in_unit_defined x : in_unit_interval x -> is_nan x = false.
Proof. destruct x; [reflexivity|intros []]. Qed.

Lemma update_loop_length registry :
  List.length (fst (update_loop registry)) = List.length registry.
Proof.
  induction registry as [|d registry IH]; [reflexivity|]; cbn [update_loop].
  destruct (find_weights (PyStr (data d))) as [e|ws]; [reflexivity|].
  destruct (update_weights d ws) as [d' [e|u]]; [reflexivity|].
  destruct (update_loop registry) as [registry' r]; cbn [fst List.length] in *.
  rewrite IH; reflexivity.
Qed.

Lemma survivors_scored blocks pairs :
  Forall2 (fun block p =>
             extract_feeling (PyStr block) 0 = Ok (fst p)
             /\ strip_data (PyStr block) = Ok (snd p)) blocks pairs ->
  forall registry,
    Forall2 scored (map (fun p => Data_init (fst p) (snd p)) pairs) registry ->
    Forall2 (fun block d =>
               extract_feeling (PyStr block) 0 = Ok (feeling d)
               /\ strip_data (PyStr block) = Ok (data d)
               /\ find_weights (PyStr (data d)) = Ok (weights d)
               /\ np_mean (weights d) = Ok (average_weight d)
               /\ in_unit_interval (average_weight d))
            blocks registry.
Proof.
  induction 1 as [|b p blocks pairs [He Hb] Hrest IH]; intros registry Hsc;
    cbn [map] in Hsc; inversion Hsc as [|? d ? registry' Hd Hds]; subst;
    constructor; [|apply IH; exact Hds].
  destruct Hd as (Hf & Hdat & Hw & Hm & Hu); cbn [Data_init feeling data] in *.
  rewrite Hf, Hdat; repeat split; assumption.
Qed.

Lemma pairs_from_blocks blocks p :
  In p (flat_map block_pairs blocks) ->
  exists block, In block blocks /\ survives block = true
                /\ strip_data (PyStr block) = Ok (snd p).
Proof.
  intros Hin; apply in_flat_map in Hin; destruct Hin as (b & Hb & Hp).
  exists b; split; [exact Hb|].
  destruct (survives b) eqn:Hs;
    [|rewrite (block_pairs_skipped b Hs) in Hp; destruct Hp].
  destruct (block_pairs_survivor b Hs) as (label & body & _ & Hbody & Hpairs).
  rewrite Hpairs in Hp; destruct Hp as [<-|[]]; split; [reflexivity|exact Hbody].
Qed.

(** X22: started on an empty registry with a file whose sixth to
    fifteenth blocks hold at least one bracketed word, and in which the
    body of every block with a bracketed word consists of the four
    answers, [main] returns: the registry holds one record for each such
    block, in order, with its label, its body, the weights of the body and
    their mean, a number from 0 to 1; one line is printed for each other
    block; and the ranking printed holds the pair of each record once, in
    descending order of the mean. *)
Theorem main_ranks (files : string -> option string) (contents : string)
    (Hfile : files "EmotionalClimateData.dat" = Some contents)
    (Hsome : Exists (fun block => survives block = true) (main_blocks contents))
    (Hanswers : forall block body,
        In block (main_blocks contents) -> survives block = true ->
        strip_data (PyStr block) = Ok body ->
        Forall (fun tok => In tok answers) (split_from (str space) 0 body)) :
  exists registry lines ranked,
    main files [] = (registry, lines, Ok ranked)
    /\ Forall2 (fun block d =>
                  extract_feeling (PyStr block) 0 = Ok (feeling d)
                  /\ strip_data (PyStr block) = Ok (data d)
                  /\ find_weights (PyStr (data d)) = Ok (weights d)
                  /\ np_mean (weights d) = Ok (average_weight d)
                  /\ in_unit_interval (average_weight d))
               (filter survives (main_blocks contents)) registry
    /\ (List.length lines + List.length registry
        = List.length (main_blocks contents))%nat
    /\ Permutation ranked (map (fun d => (feeling d, average_weight d)) registry)
    /\ StronglySorted (fun p q => num_le (snd q) (snd p)) ranked.
Proof.
  set (blocks := main_blocks contents) in *.
  set (pairs := flat_map block_pairs blocks).
  assert (Hpairs : pairs <> []).
  { apply Exists_exists in Hsome; destruct Hsome as (b & Hb & Hs).
    destruct (block_pairs_survivor b Hs) as (label & body & _ & _ & Hp).
    intros Hnil.
    assert (Hin : In (label, body) pairs)
      by (apply in_flat_map; exists b; split; [exact Hb|rewrite Hp; left; reflexivity]).
    rewrite Hnil in Hin; destruct Hin. }
  assert (Hscorable : Forall scorable (map (fun p => Data_init (fst p) (snd p)) pairs)).
  { apply Forall_map, Forall_forall; intros p Hp.
    destruct (pairs_from_blocks blocks p Hp) as (b & Hb & Hs & Hbody).
    unfold scorable; cbn [Data_init data]; exact (Hanswers b (snd p) Hb Hs Hbody). }
  destruct (update_loop_scores _ Hscorable) as (registry & Hloop & Hscored).
  exists registry, (flat_map block_diagnostic blocks), (order_weights registry).
  split.
  { rewrite (main_run _ _ _ Hfile); fold blocks; fold pairs.
    destruct pairs as [|p ps] eqn:Hp; [congruence|].
    cbn [app]; rewrite Hloop; reflexivity. }
  split; [apply (survivors_scored _ pairs); [apply pairs_of_survivors|exact Hscored]|].
  split.
  { pose proof (diagnostics_length blocks) as Hl; fold pairs in Hl.
    apply Forall2_length in Hscored; rewrite length_map in Hscored; lia. }
  rewrite order_weights_sort.
  split; [apply list_sort_reverse_perm|].
  apply list_sort_reverse_sorted, Forall_map.
  clear -Hscored; induction Hscored as [|d d' l l' Hd _ IH]; constructor;
    [|exact IH].
  apply in_unit_defined; apply Hd.
Qed.

Lemma main_ranks_witness :
  one_file "EmotionalClimateData.dat" example_file "EmotionalClimateData.dat"
  = Some example_file
  /\ Exists (fun block => survives block = true) (main_blocks example_file)
  /\ exists registry lines ranked,
       main (one_file "EmotionalClimateData.dat" example_file) []
       = (registry, lines, Ok ranked)
       /\ map fst ranked = ["Calm"; "Tired"]
       /\ List.length lines = 1%nat
       /\ StronglySorted (fun p q => num_le (snd q) (snd p)) ranked.
Proof.
  assert (Hf : one_file "EmotionalClimateData.dat" example_file
                 "EmotionalClimateData.dat" = Some example_file) by reflexivity.
  assert (Hs : Exists (fun block => survives block = true) (main_blocks example_file))
    by (vm_compute; left; reflexivity).
  assert (Ha : forall block body,
             In block (main_blocks example_file) -> survives block = true ->
             strip_data (PyStr block) = Ok body ->
             Forall (fun tok => In tok answers) (split_from (str space) 0 body)).
  { intros block body Hin; vm_compute in Hin.
    destruct Hin as [<-|[<-|[<-|[]]]]; intros Hsv Hb; vm_compute in Hb, Hsv;
      try discriminate; inversion Hb; subst body; vm_compute;
      repeat (apply Forall_cons; [auto 8|]); apply Forall_nil. }
  split; [exact Hf|]. split; [exact Hs|].
  destruct (main_ranks _ _ Hf Hs Ha) as (registry & lines & ranked & Hm & _ & _ & _ & Hr).
  exists registry, lines, ranked; split; [exact Hm|].
  assert (Hrun : main (one_file "EmotionalClimateData.dat" example_file) []
                 = (fst (fst (main (one_file "EmotionalClimateData.dat" example_file) [])),
                    snd (fst (main (one_file "EmotionalClimateData.dat" example_file) [])),
                    snd (main (one_file "EmotionalClimateData.dat" example_file) [])))
    by (destruct (main _ _) as [[? ?] ?]; reflexivity).
  rewrite Hm in Hrun at 1.
  assert (Hlines : lines
                   = snd (fst (main (one_file "EmotionalClimateData.dat" example_file) [])))
    by congruence.
  assert (Hranked : Ok ranked
                    = snd (main (one_file "EmotionalClimateData.dat" example_file) []))
    by congruence.
  vm_compute in Hlines, Hranked.
  inversion Hranked; subst ranked lines.
  split; [reflexivity|]. split; [reflexivity|exact Hr].
Defined.

(** X23: when the body of one of the blocks with a bracketed word holds
    a token that is not one of the four answers (a misspelt answer, a
    second bracketed word, an empty token between two spaces), [main]
    raises TypeError while scoring and prints no ranking; the records of
    all those blocks were added to the registry before. *)
Theorem main_unscorable (files : string -> option string) (contents : string)
    (registry : list Data) (block body : string)
    (Hfile : files "EmotionalClimateData.dat" = Some contents)
    (Hin : In block (main_blocks contents))
    (Hsurvives : survives block = true)
    (Hbody : strip_data (PyStr block) = Ok body)
    (Htoken : ~ Forall (fun tok => In tok answers) (split_from (str space) 0 body)) :
  exists registry' lines msg,
    main files registry = (registry', lines, Raise (TypeError msg))
    /\ List.length registry'
       = (List.length registry
          + List.length (filter survives (main_blocks contents)))%nat.
Proof.
  set (blocks := main_blocks contents) in *.
  set (pairs := flat_map block_pairs blocks).
  destruct (block_pairs_survivor block Hsurvives) as (label & body' & _ & Hb' & Hp).
  unfold Ok in Hb', Hbody; rewrite Hbody in Hb'; inversion Hb'; subst body'.
  assert (Hinp : In (label, body) pairs)
    by (apply in_flat_map; exists block; split; [exact Hin|rewrite Hp; left; reflexivity]).
  set (initial := registry ++ map (fun p => Data_init (fst p) (snd p)) pairs).
  assert (Hnot : ~ Forall scorable initial).
  { intros Hall; rewrite Forall_forall in Hall.
    apply Htoken.
    apply (Hall (Data_init label body)).
    apply in_or_app; right.
    apply (in_map (fun p => Data_init (fst p) (snd p)) pairs (label, body) Hinp). }
  destruct (update_loop_raises initial Hnot) as (registry' & msg & Hloop).
  exists registry', (flat_map block_diagnostic blocks), msg.
  split.
  - rewrite (main_run _ _ _ Hfile); fold blocks; fold pairs.
    destruct pairs as [|p ps] eqn:Hpairs; [destruct Hinp|].
    fold initial; rewrite Hloop; reflexivity.
  - pose proof (update_loop_length initial) as Hlen.
    rewrite Hloop in Hlen; cbn [fst] in Hlen; rewrite Hlen.
    unfold initial; rewrite length_app, length_map; f_equal.
    symmetry; apply (Forall2_length (pairs_of_survivors blocks)).
Qed.

Lemma main_unscorable_witness :
  one_file "EmotionalClimateData.dat" misspelt_file "EmotionalClimateData.dat"
  = Some misspelt_file
  /\ In ("Q [Tired]" ++ str newline ++ "Often" ++ str newline ++ "never")%string
        (main_blocks misspelt_file)
  /\ survives ("Q [Tired]" ++ str newline ++ "Often" ++ str newline ++ "never") = true
  /\ strip_data (PyStr ("Q [Tired]" ++ str newline ++ "Often" ++ str newline ++ "never"))
     = Ok "Often never"
  /\ ~ Forall (fun tok => In tok answers) (split_from (str space) 0 "Often never")
  /\ exists registry' lines msg,
       main (one_file "EmotionalClimateData.dat" misspelt_file) []
       = (registry', lines, Raise (TypeError msg))
       /\ List.length registry' = 1%nat.
Proof.
  assert (Hf : one_file "EmotionalClimateData.dat" misspelt_file
                 "EmotionalClimateData.dat" = Some misspelt_file) by reflexivity.
  assert (Hin : In ("Q [Tired]" ++ str newline ++ "Often" ++ str newline ++ "never")%string
                  (main_blocks misspelt_file)) by (vm_compute; left; reflexivity).
  assert (Ht : ~ Forall (fun tok => In tok answers)
                   (split_from (str space) 0 "Often never")).
  { vm_compute; intros H; inversion H as [|? ? _ H2]; subst.
    inversion H2 as [|? ? H3 _]; subst.
    destruct H3 as [H3|[H3|[H3|[H3|[]]]]]; discriminate. }
  split; [exact Hf|]. split; [exact Hin|]. split; [reflexivity|].
  split; [reflexivity|]. split; [exact Ht|].
  destruct (main_unscorable _ _ [] _ "Often never" Hf Hin eq_refl eq_refl Ht)
    as (registry' & lines & msg & Hm & Hl).
  exists registry', lines, msg; split; [exact Hm|exact Hl].
Defined.
